(** * Team-battle tournament creator: model and properties

    A shallow embedding of [src/tournament-creator-simple.ts].

    - [JSString]: strings as sequences of UTF-16 code units, with the
      [String.prototype] methods the script calls ([includes], [trim]).
    - [JSDate]: the time-value arithmetic of ECMA-262 (section 21.4.1)
      behind [new Date], [Date.UTC], the field getters and [toISOString].
    - the script itself: [buildTournamentName], [buildDescription],
      [createTournamentDate], [createTeamBattle] and [main], written in a
      small state-and-exception monad over an explicit world (the state
      file and the trace of observable effects).

    Numbers are whole-number doubles, modelled as [Z]; the additions on
    the tournament counter round as IEEE doubles do ([JSNumber]), the
    other numbers of the script stay below 2^53, where doubles are
    exact. *)

From Stdlib Require Import ZArith List String Ascii Bool Lia.
From Stdlib Require DecimalZ.
Import ListNotations.
Open Scope Z_scope.

(* ================================================================== *)
(** ** Strings *)

Module JSString.

Definition code_unit := N.
Definition jsstring := list code_unit.

(** An ASCII literal as a JS string. *)
Definition str (s : string) : jsstring :=
  map N_of_ascii (list_ascii_of_string s).

Definition code_eqb (a b : code_unit) : bool := N.eqb a b.

Fixpoint eqb (s t : jsstring) : bool :=
  match s, t with
  | [], [] => true
  | a :: s', b :: t' => code_eqb a b && eqb s' t'
  | _, _ => false
  end.

(** [s.startsWith(pat)] *)
Fixpoint startsWith (s pat : jsstring) {struct pat} : bool :=
  match pat, s with
  | [], _ => true
  | p :: pat', c :: s' => code_eqb p c && startsWith s' pat'
  | _ :: _, [] => false
  end.

(** [s.includes(pat)]: [pat] occurs at some position of [s]. *)
Fixpoint includes (s pat : jsstring) : bool :=
  startsWith s pat ||
  match s with
  | [] => false
  | _ :: s' => includes s' pat
  end.

(** WhiteSpace and LineTerminator code points of ECMA-262, the ones
    [trim] strips. *)
Definition isWhiteSpace (c : code_unit) : bool :=
  ((9 <=? c) && (c <=? 13) || (c =? 32) || (c =? 160) || (c =? 5760)
   || (8192 <=? c) && (c <=? 8202) || (c =? 8232) || (c =? 8233)
   || (c =? 8239) || (c =? 8287) || (c =? 12288) || (c =? 65279))%N.

Fixpoint trimStart (s : jsstring) : jsstring :=
  match s with
  | [] => []
  | c :: s' => if isWhiteSpace c then trimStart s' else s
  end.

Definition trimEnd (s : jsstring) : jsstring := rev (trimStart (rev s)).

Definition trim (s : jsstring) : jsstring := trimEnd (trimStart s).

(** [parts.join(sep)] *)
Fixpoint join (sep : jsstring) (parts : list jsstring) : jsstring :=
  match parts with
  | [] => []
  | [p] => p
  | p :: rest => p ++ sep ++ join sep rest
  end.

Fixpoint uint_digits (u : Decimal.uint) : jsstring :=
  match u with
  | Decimal.Nil => []
  | Decimal.D0 u => 48%N :: uint_digits u
  | Decimal.D1 u => 49%N :: uint_digits u
  | Decimal.D2 u => 50%N :: uint_digits u
  | Decimal.D3 u => 51%N :: uint_digits u
  | Decimal.D4 u => 52%N :: uint_digits u
  | Decimal.D5 u => 53%N :: uint_digits u
  | Decimal.D6 u => 54%N :: uint_digits u
  | Decimal.D7 u => 55%N :: uint_digits u
  | Decimal.D8 u => 56%N :: uint_digits u
  | Decimal.D9 u => 57%N :: uint_digits u
  end.

(** [String(n)] and template interpolation of an integer. *)
Definition ofNumber (n : Z) : jsstring :=
  match Z.to_int n with
  | Decimal.Pos u => uint_digits u
  | Decimal.Neg u => 45%N :: uint_digits u
  end.

(** The last [width] decimal digits of [n], zero padded. *)
Fixpoint padDigits (width : nat) (n : Z) : jsstring :=
  match width with
  | O => []
  | S w => padDigits w (n / 10) ++ [Z.to_N (48 + n mod 10)]
  end.

End JSString.

Import JSString.

(* ================================================================== *)
(** ** Numbers *)

(** The whole-number values of the Number type: an integer [z] stands for
    the double of that value.  Every integer up to 2^53 in magnitude is a
    double; beyond, a double has 53 significant bits.  Magnitudes from
    2^1024 on (Infinity in the code) and fractions are outside the
    model. *)
Module JSNumber.

(** 2^53: up to here every integer is a double. *)
Definition exactLimit : Z := 9007199254740992.

(** The double nearest to a non-negative integer, ties to the even
    significand.  The integers met here are sums of a double and 0 or 1,
    which stay below the largest double: the overflow to [Infinity]
    does not occur. *)
Definition roundMagnitude (n : Z) : Z :=
  if n <=? exactLimit then n
  else
    let q := 2 ^ (Z.log2 n - 52) in
    let m := n / q in
    let r := n mod q in
    if 2 * r <? q then m * q
    else if q <? 2 * r then (m + 1) * q
    else if Z.even m then m * q
    else (m + 1) * q.

Definition round (z : Z) : Z := Z.sgn z * roundMagnitude (Z.abs z).

(** [a + b] on Numbers. *)
Definition add (a b : Z) : Z := round (a + b).

End JSNumber.

(* ================================================================== *)
(** ** Dates (ECMA-262, 21.4.1) *)

Module JSDate.

Definition msPerDay : Z := 86400000.
Definition msPerHour : Z := 3600000.
Definition msPerMinute : Z := 60000.
Definition msPerSecond : Z := 1000.

(** Largest magnitude of a time value; beyond it a Date is invalid. *)
Definition maxTime : Z := 8640000000000000.

Definition Day (t : Z) : Z := t / msPerDay.

Definition isLeap (y : Z) : bool :=
  ((y mod 4 =? 0) && negb (y mod 100 =? 0)) || (y mod 400 =? 0).

Definition leapDays (y : Z) : Z := if isLeap y then 1 else 0.

Definition DaysInYear (y : Z) : Z := 365 + leapDays y.

Definition DayFromYear (y : Z) : Z :=
  365 * (y - 1970) + (y - 1969) / 4 - (y - 1901) / 100 + (y - 1601) / 400.

Definition TimeFromYear (y : Z) : Z := msPerDay * DayFromYear y.

(** The year a day number falls in: the largest [y] with
    [DayFromYear y <= d].  The mean-year estimate is off by at most one. *)
Definition YearFromDay (d : Z) : Z :=
  let y0 := 1970 + (400 * d) / 146097 in
  if d <? DayFromYear y0 then y0 - 1
  else if DayFromYear (y0 + 1) <=? d then y0 + 1
  else y0.

Definition YearFromTime (t : Z) : Z := YearFromDay (Day t).

Definition DayWithinYear (t : Z) : Z :=
  Day t - DayFromYear (YearFromTime t).

Definition InLeapYear (t : Z) : Z := leapDays (YearFromTime t).

(** Month number (0 = January) of a day within a year. *)
Definition monthOfYearDay (dwy leap : Z) : Z :=
  if dwy <? 31 then 0
  else if dwy <? 59 + leap then 1
  else if dwy <? 90 + leap then 2
  else if dwy <? 120 + leap then 3
  else if dwy <? 151 + leap then 4
  else if dwy <? 181 + leap then 5
  else if dwy <? 212 + leap then 6
  else if dwy <? 243 + leap then 7
  else if dwy <? 273 + leap then 8
  else if dwy <? 304 + leap then 9
  else if dwy <? 334 + leap then 10
  else 11.

Definition MonthFromTime (t : Z) : Z :=
  monthOfYearDay (DayWithinYear t) (InLeapYear t).

(** Day of the month (1-based). *)
Definition DateFromTime (t : Z) : Z :=
  let dwy := DayWithinYear t in
  let leap := InLeapYear t in
  match MonthFromTime t with
  | 0 => dwy + 1
  | 1 => dwy - 30
  | 2 => dwy - 58 - leap
  | 3 => dwy - 89 - leap
  | 4 => dwy - 119 - leap
  | 5 => dwy - 150 - leap
  | 6 => dwy - 180 - leap
  | 7 => dwy - 211 - leap
  | 8 => dwy - 242 - leap
  | 9 => dwy - 272 - leap
  | 10 => dwy - 303 - leap
  | _ => dwy - 333 - leap
  end.

Definition HourFromTime (t : Z) : Z := (t / msPerHour) mod 24.
Definition MinFromTime (t : Z) : Z := (t / msPerMinute) mod 60.
Definition SecFromTime (t : Z) : Z := (t / msPerSecond) mod 60.
Definition msFromTime (t : Z) : Z := t mod msPerSecond.

Definition MakeTime (hour min sec ms : Z) : Z :=
  hour * msPerHour + min * msPerMinute + sec * msPerSecond + ms.

(** Days from 1 January to the first of month [mn] (0-based). *)
Definition monthStart (mn leap : Z) : Z :=
  match mn with
  | 0 => 0
  | 1 => 31
  | 2 => 59 + leap
  | 3 => 90 + leap
  | 4 => 120 + leap
  | 5 => 151 + leap
  | 6 => 181 + leap
  | 7 => 212 + leap
  | 8 => 243 + leap
  | 9 => 273 + leap
  | 10 => 304 + leap
  | _ => 334 + leap
  end.

(** [MakeDay]: months and days outside their range carry over. *)
Definition MakeDay (year month date : Z) : Z :=
  let ym := year + month / 12 in
  let mn := month mod 12 in
  DayFromYear ym + monthStart mn (leapDays ym) + date - 1.

Definition MakeDate (day time : Z) : Z := day * msPerDay + time.

(** Two-digit years mean 19xx in [new Date(y, ...)] and [Date.UTC]. *)
Definition MakeFullYear (year : Z) : Z :=
  if (0 <=? year) && (year <=? 99) then 1900 + year else year.

(** [TimeClip]: [None] is NaN, an invalid Date. *)
Definition TimeClip (t : Z) : option Z :=
  if Z.abs t <=? maxTime then Some t else None.

(** [Date.UTC(year, month, date, hours, minutes, 0, 0)] *)
Definition UTC (year month date hours minutes seconds ms : Z) : option Z :=
  TimeClip (MakeDate (MakeDay (MakeFullYear year) month date)
                     (MakeTime hours minutes seconds ms)).

(** [LocalTime(t)] and [UTC(t)] in the zone with offsets [tza]. *)
Definition LocalTime (tza : Z -> bool -> Z) (t : Z) : Z := t + tza t true.
Definition UTCTime (tza : Z -> bool -> Z) (t : Z) : Z := t - tza t false.

(** [new Date(year, month, date)]: the fields are local time. *)
Definition newLocal (tza : Z -> bool -> Z) (year month date : Z)
  : option Z :=
  TimeClip (UTCTime tza (MakeDate (MakeDay (MakeFullYear year) month date)
                                  (MakeTime 0 0 0 0))).

Definition getUTCFullYear (tv : Z) : Z := YearFromTime tv.
Definition getUTCMonth (tv : Z) : Z := MonthFromTime tv.
Definition getUTCDate (tv : Z) : Z := DateFromTime tv.

Definition getFullYear (tza : Z -> bool -> Z) (tv : Z) : Z :=
  YearFromTime (LocalTime tza tv).
Definition getMonth (tza : Z -> bool -> Z) (tv : Z) : Z :=
  MonthFromTime (LocalTime tza tv).
Definition getDate (tza : Z -> bool -> Z) (tv : Z) : Z :=
  DateFromTime (LocalTime tza tv).

Definition isoYear (y : Z) : jsstring :=
  if (0 <=? y) && (y <=? 9999) then padDigits 4 y
  else (if y <? 0 then str "-" else str "+") ++ padDigits 6 (Z.abs y).

(** The format [YYYY-MM-DDTHH:mm:ss.sssZ] of [toISOString]. *)
Definition isoFormat (year month date hour min sec ms : Z) : jsstring :=
  isoYear year ++ str "-" ++ padDigits 2 month ++ str "-" ++
  padDigits 2 date ++ str "T" ++ padDigits 2 hour ++ str ":" ++
  padDigits 2 min ++ str ":" ++ padDigits 2 sec ++ str "." ++
  padDigits 3 ms ++ str "Z".

Definition toISOString (tv : Z) : jsstring :=
  isoFormat (YearFromTime tv) (MonthFromTime tv + 1) (DateFromTime tv)
            (HourFromTime tv) (MinFromTime tv) (SecFromTime tv)
            (msFromTime tv).

End JSDate.

(* ================================================================== *)
(** ** Data of the script *)

(** ['Day' | 'Night'] *)
Inductive SlotType := Day | Night.

Definition slotName (type : SlotType) : jsstring :=
  match type with
  | Day => str "Day"
  | Night => str "Night"
  end.

Record TournamentConfig := {
  server : jsstring;
  hostTeamId : jsstring;
  timezone : jsstring;
  minutes : Z;
  clockTime : Z;
  clockIncrement : Z;
  rated : bool;
  variant : jsstring;
  teams : list jsstring;
  dryRun : option bool
}.

(** The state file.  The counter is a Number; the model holds its
    whole-number values. *)
Record TournamentState := { lastTournamentDayNum : Z }.

(** An element of [tournaments] in [main]. *)
Record Tournament := {
  name : jsstring;
  description : jsstring;
  startDateISO : jsstring;
  dayNum : Z;
  type : SlotType
}.

(** The argument object of [createTeamBattle]. *)
Record Params := {
  p_server : jsstring;
  p_token : jsstring;
  p_name : jsstring;
  p_description : jsstring;
  p_clockTime : Z;
  p_clockIncrement : Z;
  p_minutes : Z;
  p_rated : bool;
  p_variant : jsstring;
  p_startDateISO : jsstring;
  p_hostTeamId : jsstring;
  p_teams : list jsstring;
  p_dryRun : option bool
}.

(** [{ ok: boolean; url?: string; error?: string }] *)
Record SubmitResult := {
  ok : bool;
  url : option jsstring;
  error : option jsstring
}.

(** Thrown values, by kind and message.  [SystemError] is what [fs]
    throws, an [Error] with a code; [FetchError] is what [fetch]
    rejects with. *)
Inductive Exn :=
| Error (message : jsstring)
| RangeError (message : jsstring)
| SystemError (message : jsstring)
| FetchError (message : jsstring).

(** [error.name] *)
Definition exnName (e : Exn) : jsstring :=
  match e with
  | Error _ => str "Error"
  | RangeError _ => str "RangeError"
  | SystemError _ => str "Error"
  | FetchError _ => str "FetchError"
  end.

(** [error.message] *)
Definition exnMessage (e : Exn) : jsstring :=
  match e with
  | Error m | RangeError m | SystemError m | FetchError m => m
  end.

(** [String(error)]: the name alone when the message is empty.  Where the
    script passes the error itself to [console.error], which prints its
    stack, the trace keeps this string form. *)
Definition exnString (e : Exn) : jsstring :=
  match exnMessage e with
  | [] => exnName e
  | m => exnName e ++ str ": " ++ m
  end.

Inductive Outcome (A : Type) :=
| Return (a : A)
| Throw (e : Exn).
Arguments Return {A} a.
Arguments Throw {A} e.

(** *** The network *)

Record Request := {
  req_url : jsstring;
  req_method : jsstring;
  req_headers : list (jsstring * jsstring);
  req_body : list (jsstring * jsstring)
}.

(** What the script reads of a response.  [res_json] is the outcome of
    [res.json()] reduced to [data?.id]: [Some id] when it is truthy, with
    [id] its interpolation into a template. *)
Record Response := {
  res_ok : bool;
  res_status : Z;
  res_text : Outcome jsstring;
  res_json : Outcome (option jsstring);
  res_location : option jsstring
}.

Inductive FetchOutcome :=
| Rejected (e : Exn)
| Responded (res : Response).

(** *** The environment of a run: what it reads and cannot influence. *)
Record Env := {
  OAUTH_TOKEN : option jsstring;
  DRY_RUN : option jsstring;
  (** time value of [new Date()] *)
  now : Z;
  (** [LocalTZA(t, isUTC)]: the offset of local time from UTC, in
      milliseconds, at the UTC time [t] or at the local time [t] *)
  localTZA : Z -> bool -> Z;
  (** answer to the n-th [fetch] of the run *)
  network : nat -> Request -> FetchOutcome;
  (** what [fs.writeFileSync] throws, if it does *)
  writeFailure : option Exn
}.

(** *** The world a run acts on. *)
Inductive Event :=
| ConsoleLog (msg : jsstring)
| ConsoleWarn (msg : jsstring)
| ConsoleError (msg : jsstring)
| Fetch (req : Request)
| Sleep (ms : Z)
| WriteFile (path : jsstring) (content : TournamentState)
(** history: the value a [createTeamBattle] call of [main] resolved to *)
| Submitted (t : Tournament) (result : SubmitResult).

(** [stateFile] is the parsed content of the state file, [None] when it is
    missing or does not parse. *)
Record World := {
  stateFile : option TournamentState;
  trace : list Event
}.

Definition fetchesOf (tr : list Event) : list Request :=
  flat_map (fun e => match e with Fetch r => [r] | _ => [] end) tr.

Definition writesOf (tr : list Event) : list TournamentState :=
  flat_map (fun e => match e with WriteFile _ c => [c] | _ => [] end) tr.

Definition resultsOf (tr : list Event) : list SubmitResult :=
  flat_map (fun e => match e with Submitted _ r => [r] | _ => [] end) tr.

Definition attemptedOf (tr : list Event) : list Tournament :=
  flat_map (fun e => match e with Submitted t _ => [t] | _ => [] end) tr.

(* ================================================================== *)
(** ** The monad: world passing with exceptions *)

Definition M (A : Type) : Type := World -> Outcome A * World.

Definition ret {A} (a : A) : M A := fun w => (Return a, w).

Definition throw {A} (e : Exn) : M A := fun w => (Throw e, w).

Definition bind {A B} (m : M A) (k : A -> M B) : M B :=
  fun w =>
    match m w with
    | (Return a, w') => k a w'
    | (Throw e, w') => (Throw e, w')
    end.

(** [try { m } catch (error) { handler }] *)
Definition tryCatch {A} (m : M A) (handler : Exn -> M A) : M A :=
  fun w =>
    match m w with
    | (Return a, w') => (Return a, w')
    | (Throw e, w') => handler e w'
    end.

Definition lift {A} (o : Outcome A) : M A := fun w => (o, w).

Declare Scope monad_scope.
Delimit Scope monad_scope with monad.
Notation "x <- m ;; k" := (bind m (fun x => k))
  (at level 100, m at next level, right associativity) : monad_scope.
Notation "m ;; k" := (bind m (fun _ => k))
  (at level 100, right associativity) : monad_scope.
Open Scope monad_scope.

Definition emit (e : Event) : M unit :=
  fun w => (Return tt, {| stateFile := stateFile w; trace := trace w ++ [e] |}).

(** [console.log(a, b, ...)]: the arguments separated by spaces. *)
Definition consoleLog (args : list jsstring) : M unit :=
  emit (ConsoleLog (join (str " ") args)).
Definition consoleWarn (args : list jsstring) : M unit :=
  emit (ConsoleWarn (join (str " ") args)).
Definition consoleError (args : list jsstring) : M unit :=
  emit (ConsoleError (join (str " ") args)).

(** [await new Promise(resolve => setTimeout(resolve, ms))] *)
Definition sleep (ms : Z) : M unit := emit (Sleep ms).

(* ================================================================== *)
(** ** The script *)

Definition isEmpty (s : jsstring) : bool :=
  match s with
  | [] => true
  | _ :: _ => false
  end.

(** [pad2(n)] *)
Definition pad2 (n : Z) : jsstring :=
  if n <? 10 then str "0" ++ ofNumber n else ofNumber n.

Definition createTournamentDate (year month day hour minute : Z)
  : Outcome jsstring :=
  match JSDate.UTC year (month - 1) day hour minute 0 0 with
  | Some date => Return (JSDate.toISOString date)
  | None => Throw (RangeError (str "Invalid time value"))
  end.

Definition buildTournamentName (dayNum : Z) (type : SlotType) : jsstring :=
  str "LMAO " ++ slotName type ++ str " '" ++ ofNumber dayNum ++
  str "' Team Battle".

Definition buildDescription (dayNum : Z) (type : SlotType) : jsstring :=
  str "Welcome to the LMAO " ++ slotName type ++ str " '" ++
  ofNumber dayNum ++ str "' Team Battle! Have fun and fair play!".

(** The guard at the head of [createTeamBattle]. *)
Definition tokenRejected (token : jsstring) : bool :=
  isEmpty token || JSString.eqb (trim token) [] ||
  includes token (str "***") || includes token (str "YOUR_TOKEN").

(** [params.teams.filter((t) => t && t !== params.hostTeamId)] *)
Definition invitedTeams (teams : list jsstring) (hostTeamId : jsstring)
  : list jsstring :=
  filter (fun t => negb (isEmpty t) && negb (JSString.eqb t hostTeamId)) teams.

Definition formBody (params : Params) : list (jsstring * jsstring) :=
  [ (str "name", p_name params);
    (str "description", p_description params);
    (str "clockTime", ofNumber (p_clockTime params));
    (str "clockIncrement", ofNumber (p_clockIncrement params));
    (str "minutes", ofNumber (p_minutes params));
    (str "rated", if p_rated params then str "true" else str "false");
    (str "variant", p_variant params);
    (str "startDate", p_startDateISO params);
    (str "hostTeamId", p_hostTeamId params) ] ++
  map (fun t => (str "teams[]", t))
      (invitedTeams (p_teams params) (p_hostTeamId params)).

Definition arenaRequest (params : Params) : Request :=
  {| req_url := p_server params ++ str "/api/team/" ++ p_hostTeamId params ++
                str "/arena";
     req_method := str "POST";
     req_headers :=
       [ (str "Authorization", str "Bearer " ++ p_token params);
         (str "Content-Type", str "application/x-www-form-urlencoded");
         (str "Accept", str "application/json") ];
     req_body := formBody params |}.

Definition pendingUrl (params : Params) : jsstring :=
  p_server params ++ str "/team/" ++ p_hostTeamId params ++
  str "/arena/pending".

Definition failure (msg : jsstring) : SubmitResult :=
  {| ok := false; url := None; error := Some msg |}.

Definition success (u : jsstring) : SubmitResult :=
  {| ok := true; url := Some u; error := None |}.

Definition invalidTokenMessage : jsstring :=
  str "Invalid or missing OAuth token. Please set a valid OAUTH_TOKEN environment variable.".

Definition stateFilePath : jsstring := str "config/auto-teamfight.state.json".

Section Script.

Variable E : Env.

(** [await fetch(url, options)]: the request goes out, the environment
    answers. *)
Definition fetch (req : Request) : M Response :=
  fun w =>
    let n := List.length (fetchesOf (trace w)) in
    let w' := {| stateFile := stateFile w; trace := trace w ++ [Fetch req] |} in
    match network E n req with
    | Rejected e => (Throw e, w')
    | Responded res => (Return res, w')
    end.

Definition createTeamBattle (params : Params) : M SubmitResult :=
  if tokenRejected (p_token params) then
    ret (failure invalidTokenMessage)
  else
    let invited := invitedTeams (p_teams params) (p_hostTeamId params) in
    match p_dryRun params with
    | Some true =>
        consoleLog [str "[DRY RUN] Would create: " ++ p_name params] ;;
        consoleLog [str "[DRY RUN] Start: " ++ p_startDateISO params] ;;
        consoleLog [str "[DRY RUN] Teams: " ++ join (str ", ") invited] ;;
        ret (success (pendingUrl params))
    | _ =>
        tryCatch
          (res <- fetch (arenaRequest params) ;;
           if negb (res_ok res) then
             errorText <- lift (res_text res) ;;
             consoleError [str "Tournament creation failed:";
                           ofNumber (res_status res); errorText] ;;
             ret (failure (ofNumber (res_status res) ++ str ": " ++ errorText))
           else
             id <- lift (res_json res) ;;
             let u :=
               match id with
               | Some i => p_server params ++ str "/tournament/" ++ i
               | None =>
                   match res_location res with
                   | Some (c :: l) => c :: l
                   | _ => str "unknown"
                   end
               end in
             consoleLog [str "Created tournament:"; u] ;;
             ret (success u))
          (fun e =>
             consoleError [str "Network error:"; exnString e] ;;
             ret (failure (exnString e)))
    end.

(** [readJSON<TournamentState>(path)]; only the state file exists. *)
Definition readJSON (path : jsstring) : M TournamentState :=
  fun w =>
    match (if JSString.eqb path stateFilePath then stateFile w else None) with
    | Some st => (Return st, w)
    | None => (Throw (SystemError (str "ENOENT")), w)
    end.

(** [fs.writeFileSync(path, JSON.stringify(state, null, 2), "utf8")] *)
Definition writeFileSync (path : jsstring) (st : TournamentState) : M unit :=
  fun w =>
    let tr := trace w ++ [WriteFile path st] in
    match writeFailure E with
    | Some e => (Throw e, {| stateFile := stateFile w; trace := tr |})
    | None =>
        (Return tt,
         {| stateFile := if JSString.eqb path stateFilePath then Some st
                         else stateFile w;
            trace := tr |})
    end.

Definition config : TournamentConfig :=
  {| server := str "https://lichess.org";
     hostTeamId := str "lmao-teamfights";
     timezone := str "UTC";
     minutes := 720;
     clockTime := 3;
     clockIncrement := 0;
     rated := true;
     variant := str "standard";
     teams := [str "lmao-teamfights"; str "darkonteams"; str "rare";
               str "tekio"];
     dryRun :=
       Some (match DRY_RUN E with
             | Some v => JSString.eqb v (str "1") || JSString.eqb v (str "true")
             | None => false
             end) |}.

(** The body of [for (let dayOffset = 0; dayOffset < 2; dayOffset++)]:
    the two descriptors of one day. *)
Definition scheduleDay (nextDayNum currentYear currentMonth currentDay : Z)
    (dayOffset : Z) : Outcome (list Tournament) :=
  let tournamentDayNum := JSNumber.add nextDayNum dayOffset in
  match JSDate.newLocal (localTZA E) currentYear (currentMonth - 1)
                        (currentDay + dayOffset) with
  | None =>
      (* the fields of an invalid Date are NaN, and so is Date.UTC of them *)
      Throw (RangeError (str "Invalid time value"))
  | Some targetDate =>
      let targetYear := JSDate.getFullYear (localTZA E) targetDate in
      let targetMonth := JSDate.getMonth (localTZA E) targetDate + 1 in
      let targetDay := JSDate.getDate (localTZA E) targetDate in
      match createTournamentDate targetYear targetMonth targetDay 6 58 with
      | Throw e => Throw e
      | Return dayStart =>
          match createTournamentDate targetYear targetMonth targetDay 18 58 with
          | Throw e => Throw e
          | Return nightStart =>
              Return
                [ {| name := buildTournamentName tournamentDayNum Day;
                     description := buildDescription tournamentDayNum Day;
                     startDateISO := dayStart;
                     dayNum := tournamentDayNum;
                     type := Day |};
                  {| name := buildTournamentName tournamentDayNum Night;
                     description := buildDescription tournamentDayNum Night;
                     startDateISO := nightStart;
                     dayNum := tournamentDayNum;
                     type := Night |} ]
          end
      end
  end.

Fixpoint scheduleLoop (nextDayNum currentYear currentMonth currentDay : Z)
    (offsets : list Z) (tournaments : list Tournament)
  : Outcome (list Tournament) :=
  match offsets with
  | [] => Return tournaments
  | dayOffset :: rest =>
      match scheduleDay nextDayNum currentYear currentMonth currentDay
                        dayOffset with
      | Throw e => Throw e
      | Return pushed =>
          scheduleLoop nextDayNum currentYear currentMonth currentDay rest
                       (tournaments ++ pushed)
      end
  end.

(** Lines 147-183 of [main]: the batch for a counter value read from the
    state. *)
Definition generateTournaments (st : TournamentState)
  : Outcome (list Tournament) :=
  let nextDayNum := JSNumber.add (lastTournamentDayNum st) 1 in
  let currentYear := JSDate.getUTCFullYear (now E) in
  let currentMonth := JSDate.getUTCMonth (now E) + 1 in
  let currentDay := JSDate.getUTCDate (now E) in
  scheduleLoop nextDayNum currentYear currentMonth currentDay [0; 1] [].

Definition paramsFor (oauthToken : jsstring) (tournament : Tournament)
  : Params :=
  {| p_server := server config;
     p_token := oauthToken;
     p_name := name tournament;
     p_description := description tournament;
     p_clockTime := clockTime config;
     p_clockIncrement := clockIncrement config;
     p_minutes := minutes config;
     p_rated := rated config;
     p_variant := variant config;
     p_startDateISO := startDateISO tournament;
     p_hostTeamId := hostTeamId config;
     p_teams := teams config;
     p_dryRun := dryRun config |}.

(** [successCount] and [failureCount] *)
Record Tally := { successCount : Z; failureCount : Z }.

(** The loop [for (let i = 0; i < tournaments.length; i++)], from index
    [i] on. *)
Fixpoint submitLoop (oauthToken : jsstring) (i : nat)
    (rest : list Tournament) (tally : Tally) : M Tally :=
  match rest with
  | [] => ret tally
  | tournament :: rest' =>
      consoleLog [[10%N] ++ str "--- Creating " ++ slotName (type tournament) ++
                  str " Battle " ++ ofNumber (dayNum tournament) ++ str " ---"] ;;
      consoleLog [str "Name:"; name tournament] ;;
      consoleLog [str "Start:"; startDateISO tournament] ;;
      (if (0 <? i)%nat then
         consoleLog [str "Waiting 10 seconds to avoid rate limits..."] ;;
         sleep 10000
       else ret tt) ;;
      result <- createTeamBattle (paramsFor oauthToken tournament) ;;
      emit (Submitted tournament result) ;;
      tally' <-
        (if ok result then
           consoleLog [slotName (type tournament) ++
                       str " battle created successfully"] ;;
           ret {| successCount := successCount tally + 1;
                  failureCount := failureCount tally |}
         else
           consoleError [str "Failed to create " ++ slotName (type tournament) ++
                         str " battle: " ++
                         match error result with
                         | Some m => m
                         | None => str "undefined"
                         end] ;;
           ret {| successCount := successCount tally;
                  failureCount := failureCount tally + 1 |}) ;;
      submitLoop oauthToken (S i) rest' tally'
  end.

(** [Math.max(...values)]; [None] stands for the [-Infinity] of an empty
    argument list. *)
Definition MathMax (values : list Z) : option Z :=
  match values with
  | [] => None
  | v :: vs => Some (fold_left Z.max vs v)
  end.

(** The [try] block of [main]; the value is the exit status the process
    ends with when nothing is thrown. *)
Definition mainBody : M Z :=
  match OAUTH_TOKEN E with
  | None | Some [] =>
      throw (Error (str "OAUTH_TOKEN environment variable is required"))
  | Some oauthToken =>
      state <- tryCatch (readJSON stateFilePath)
                 (fun _ =>
                    consoleWarn [str "Could not read " ++ stateFilePath ++
                                 str ", starting from Day 24"] ;;
                    ret {| lastTournamentDayNum := 24 |}) ;;
      let nextDayNum := JSNumber.add (lastTournamentDayNum state) 1 in
      tournaments <- lift (generateTournaments state) ;;
      consoleLog [str "Creating " ++ ofNumber (Z.of_nat (List.length tournaments)) ++
                  str " tournaments (Days " ++ ofNumber nextDayNum ++ str "-" ++
                  ofNumber (JSNumber.add nextDayNum 1) ++ str ")"] ;;
      consoleLog [str "Teams: " ++ join (str ", ") (teams config)] ;;
      tally <- submitLoop oauthToken 0 tournaments
                 {| successCount := 0; failureCount := 0 |} ;;
      state' <-
        (if 0 <? successCount tally then
           match MathMax (map dayNum tournaments) with
           | Some maxDayNum =>
               let state' := {| lastTournamentDayNum := maxDayNum |} in
               writeFileSync stateFilePath state' ;;
               consoleLog [[10%N] ++ str "Updated state: lastTournamentDayNum = " ++
                           ofNumber (lastTournamentDayNum state')] ;;
               ret state'
           | None =>
               (* not reached: the batch is never empty *)
               ret state
           end
         else ret state) ;;
      consoleLog [[10%N] ++ str "=== SUMMARY ==="] ;;
      consoleLog [str "Successful: " ++ ofNumber (successCount tally)] ;;
      consoleLog [str "Failed: " ++ ofNumber (failureCount tally)] ;;
      consoleLog [str "Next tournaments will start from Day: " ++
                  ofNumber (JSNumber.add (lastTournamentDayNum state') 1)] ;;
      if 0 <? failureCount tally then ret 1 else ret 0
  end.

(** [main]: the exit status of the process and the world it leaves. *)
Definition main (w : World) : Z * World :=
  match mainBody w with
  | (Return status, w') => (status, w')
  | (Throw e, w') =>
      match consoleError [str "Fatal error:"; exnString e] w' with
      | (_, w'') => (1, w'')
      end
  end.

End Script.

Definition initWorld (file : option TournamentState) : World :=
  {| stateFile := file; trace := [] |}.

(* ================================================================== *)
(** ** Vocabulary of the specification *)

(** [pat] occurs in [s] as a substring. *)
Definition contains (s pat : jsstring) : Prop :=
  exists pre post, s = pre ++ pat ++ post.

Definition whitespaceOnly (s : jsstring) : Prop :=
  Forall (fun c => isWhiteSpace c = true) s.

(** The tokens the precondition check turns away. *)
Definition placeholderToken (token : jsstring) : Prop :=
  token = [] \/ whitespaceOnly token \/
  contains token (str "***") \/ contains token (str "YOUR_TOKEN").

(** [l1] is [l2] with some elements left out: relative order is kept. *)
Inductive Subseq {A : Type} : list A -> list A -> Prop :=
| Subseq_nil : Subseq [] []
| Subseq_skip x l1 l2 : Subseq l1 l2 -> Subseq l1 (x :: l2)
| Subseq_keep x l1 l2 : Subseq l1 l2 -> Subseq (x :: l1) (x :: l2).

Definition jsstring_eq_dec (s t : jsstring) : {s = t} + {s <> t} :=
  list_eq_dec N.eq_dec s t.

(** Length of month [m] (1 = January) of year [y]. *)
Definition daysInMonth (y m : Z) : Z :=
  match m with
  | 2 => 28 + JSDate.leapDays y
  | 4 | 6 | 9 | 11 => 30
  | _ => 31
  end.


(** A real calendar date. *)
Definition validDate (ymd : Z * Z * Z) : Prop :=
  let '(y, m, d) := ymd in
  1 <= m <= 12 /\ 1 <= d <= daysInMonth y m.

(** The UTC calendar date of a time value, as [main] reads it off
    [new Date()]. *)
Definition utcDate (t : Z) : Z * Z * Z :=
  (JSDate.getUTCFullYear t, JSDate.getUTCMonth t + 1, JSDate.getUTCDate t).

(** The local zone does not skip day number [d]: local midnight of that
    day, taken to UTC and back, is a time of the same local day.  The
    offset at that midnight is within a day. *)
Definition keepsLocalDay (E : Env) (d : Z) : Prop :=
  let midnight := JSDate.MakeDate d (JSDate.MakeTime 0 0 0 0) in
  - JSDate.msPerDay <= localTZA E midnight false <= JSDate.msPerDay /\
  JSDate.Day (JSDate.LocalTime (localTZA E)
                (JSDate.UTCTime (localTZA E) midnight)) = d.

(** The clock reads a date from the year 100 on and at least three days
    before the end of the Date range, and the local zone skips neither
    that day nor the next. *)
Definition clockOk (E : Env) : Prop :=
  JSDate.TimeFromYear 100 <= now E <= JSDate.maxTime - 3 * JSDate.msPerDay /\
  keepsLocalDay E (JSDate.Day (now E)) /\
  keepsLocalDay E (JSDate.Day (now E) + 1).

(** The counter is a whole number from which two steps of one are exact
    in double arithmetic. *)
Definition safeCounter (S : Z) : Prop :=
  - JSNumber.exactLimit <= S <= JSNumber.exactLimit - 2.

(** [OAUTH_TOKEN] is set to a non-empty string. *)
Definition tokenSet (E : Env) : Prop :=
  exists c rest, OAUTH_TOKEN E = Some (c :: rest).

(** The descriptor of slot [ty] of sequence number [n] with start time
    [start]. *)
Definition descriptorAt (n : Z) (ty : SlotType) (start : jsstring)
  : Tournament :=
  {| name := buildTournamentName n ty;
     description := buildDescription n ty;
     startDateISO := start;
     dayNum := n;
     type := ty |}.

(** The descriptor of slot [ty] of sequence number [n], starting at
    [hour]:58 UTC on day number [d]. *)
Definition descriptor (n : Z) (ty : SlotType) (d hour : Z) : Tournament :=
  descriptorAt n ty
    (JSDate.toISOString (JSDate.MakeDate d (JSDate.MakeTime hour 58 0 0))).

(** The state [main] starts from: the file's, or the default. *)
Definition loadedState (file : option TournamentState) : TournamentState :=
  match file with
  | Some st => st
  | None => {| lastTournamentDayNum := 24 |}
  end.

(** Events that are neither a write of the state file nor the record of
    a submission. *)
Definition quiet (evs : list Event) : Prop :=
  writesOf evs = [] /\ resultsOf evs = [] /\ attemptedOf evs = [].

(** The world [w] after the events [evs]. *)
Definition after (w : World) (evs : list Event) : World :=
  {| stateFile := stateFile w; trace := trace w ++ evs |}.

Definition countOk (rs : list SubmitResult) : Z :=
  Z.of_nat (List.length (filter ok rs)).

Definition countFailed (rs : list SubmitResult) : Z :=
  Z.of_nat (List.length (filter (fun r => negb (ok r)) rs)).

Definition succeeded (r : SubmitResult) : Prop := ok r = true.
Definition failed (r : SubmitResult) : Prop := ok r = false.

Definition fatalError (e : Exn) : Event :=
  ConsoleError (join (str " ") [str "Fatal error:"; exnString e]).

(** The ways a run of [main] from the state file [file] can go, with the
    exit status and the final world of each. *)
Inductive RunShape (E : Env) (file : option TournamentState)
    (status : Z) (w' : World) : Prop :=
| RunAborted
    (* no token or no valid Date: nothing is attempted *)
    (Hcause : ~ tokenSet E \/
              exists e, generateTournaments E (loadedState file) = Throw e)
    (Hattempted : attemptedOf (trace w') = [])
    (Hresults : resultsOf (trace w') = [])
    (Hwrites : writesOf (trace w') = [])
    (Hfile : stateFile w' = file)
    (Hstatus : status = 1)
| RunNoSuccess ts
    (Htoken : tokenSet E)
    (Hbatch : generateTournaments E (loadedState file) = Return ts)
    (Hattempted : attemptedOf (trace w') = ts)
    (Hlength : List.length (resultsOf (trace w')) = List.length ts)
    (Hcount : countOk (resultsOf (trace w')) = 0)
    (Hwrites : writesOf (trace w') = [])
    (Hfile : stateFile w' = file)
    (Hstatus : status =
               if 0 <? countFailed (resultsOf (trace w')) then 1 else 0)
| RunWritten ts maxDayNum
    (Htoken : tokenSet E)
    (Hbatch : generateTournaments E (loadedState file) = Return ts)
    (Hattempted : attemptedOf (trace w') = ts)
    (Hlength : List.length (resultsOf (trace w')) = List.length ts)
    (Hcount : 0 < countOk (resultsOf (trace w')))
    (Hmax : MathMax (map dayNum ts) = Some maxDayNum)
    (Hwrites : writesOf (trace w') = [{| lastTournamentDayNum := maxDayNum |}])
    (Hwrite : writeFailure E = None)
    (Hfile : stateFile w' = Some {| lastTournamentDayNum := maxDayNum |})
    (Hstatus : status =
               if 0 <? countFailed (resultsOf (trace w')) then 1 else 0)
| RunWriteFailed ts maxDayNum e
    (Htoken : tokenSet E)
    (Hbatch : generateTournaments E (loadedState file) = Return ts)
    (Hattempted : attemptedOf (trace w') = ts)
    (Hlength : List.length (resultsOf (trace w')) = List.length ts)
    (Hcount : 0 < countOk (resultsOf (trace w')))
    (Hmax : MathMax (map dayNum ts) = Some maxDayNum)
    (Hwrites : writesOf (trace w') = [{| lastTournamentDayNum := maxDayNum |}])
    (Hwrite : writeFailure E = Some e)
    (Hfile : stateFile w' = file)
    (Hlast : last (trace w') (Sleep 0) = fatalError e)
    (Hstatus : status = 1).

(** *** Requests and waits of a run *)

Definition sleepsOf (tr : list Event) : list Z :=
  flat_map (fun e => match e with Sleep ms => [ms] | _ => [] end) tr.

(** Events that are neither a request nor a wait. *)
Definition offline (evs : list Event) : Prop :=
  fetchesOf evs = [] /\ sleepsOf evs = [].

(** Rate-limit discipline of a trace: every request but the first comes
    after a wait of at least ten seconds since the request before it.
    [armed] says that the next request may go out. *)
Fixpoint spaced (armed : bool) (tr : list Event) : bool :=
  match tr with
  | [] => true
  | Sleep ms :: rest => spaced (armed || (10000 <=? ms)) rest
  | Fetch _ :: rest => armed && spaced false rest
  | _ :: rest => spaced armed rest
  end.

Fixpoint armedAfter (armed : bool) (tr : list Event) : bool :=
  match tr with
  | [] => armed
  | Sleep ms :: rest => armedAfter (armed || (10000 <=? ms)) rest
  | Fetch _ :: rest => armedAfter false rest
  | _ :: rest => armedAfter armed rest
  end.

(** A call that gets as far as the network: the token passes the check
    and [dryRun] is not set. *)
Definition isLive (params : Params) : bool :=
  negb (tokenRejected (p_token params)) &&
  match p_dryRun params with
  | Some true => false
  | _ => true
  end.

(** Whether the calls of a run with token [oauthToken] reach the
    network. *)
Definition runIsLive (E : Env) (oauthToken : jsstring) : bool :=
  negb (tokenRejected oauthToken) &&
  match dryRun (config E) with
  | Some true => false
  | _ => true
  end.

(** The values of the repeated field [teams[]] of a form body. *)
Definition teamsField (body : list (jsstring * jsstring)) : list jsstring :=
  map snd (filter (fun kv => JSString.eqb (fst kv) (str "teams[]")) body).

(** The scalar fields of a form body, in order. *)
Definition scalarFields (body : list (jsstring * jsstring))
  : list (jsstring * jsstring) :=
  filter (fun kv => negb (JSString.eqb (fst kv) (str "teams[]"))) body.

(* ================================================================== *)
(** ** Sample environments *)

Definition networkDown : nat -> Request -> FetchOutcome :=
  fun _ _ => Rejected (Error (str "request failed"))%string.

Definition created (id : jsstring) : Response :=
  {| res_ok := true;
     res_status := 200;
     res_text := Return [];
     res_json := Return (Some id);
     res_location := None |}.

(** The first request is lost, the later ones are answered. *)
Definition networkFlaky : nat -> Request -> FetchOutcome :=
  fun n _ =>
    match n with
    | O => Rejected (Error (str "socket hang up"))
    | _ => Responded (created (str "Qw3rTy12"))
    end.

(** Noon UTC of 29 February 2024 and of 31 December 2024. *)
Definition leapDayNoon : Z := 1709208000000.
Definition newYearsEveNoon : Z := 1735646400000.

Definition dryRunEnv : Env :=
  {| OAUTH_TOKEN := Some (str "lip_4bKx9"); DRY_RUN := Some (str "1");
     now := leapDayNoon; localTZA := fun _ _ => 7200000;
     network := networkDown; writeFailure := None |}.

Definition diskFullEnv : Env :=
  {| OAUTH_TOKEN := Some (str "lip_4bKx9"); DRY_RUN := Some (str "true");
     now := leapDayNoon; localTZA := fun _ _ => 0;
     network := networkDown;
     writeFailure :=
       Some (SystemError (str "ENOSPC: no space left on device")) |}.

Definition offlineEnv : Env :=
  {| OAUTH_TOKEN := Some (str "lip_4bKx9"); DRY_RUN := None;
     now := newYearsEveNoon; localTZA := fun _ _ => -18000000;
     network := networkDown; writeFailure := None |}.

Definition flakyEnv : Env :=
  {| OAUTH_TOKEN := Some (str "lip_4bKx9"); DRY_RUN := Some (str "0");
     now := newYearsEveNoon; localTZA := fun _ _ => 0;
     network := networkFlaky; writeFailure := None |}.

Definition sampleParams (token : jsstring) (dry : option bool) : Params :=
  {| p_server := str "https://lichess.org";
     p_token := token;
     p_name := buildTournamentName 25 Day;
     p_description := buildDescription 25 Day;
     p_clockTime := 3;
     p_clockIncrement := 0;
     p_minutes := 720;
     p_rated := true;
     p_variant := str "standard";
     p_startDateISO := str "2024-02-29T06:58:00.000Z";
     p_hostTeamId := str "lmao-teamfights";
     p_teams := [str "lmao-teamfights"; str "darkonteams"; str "rare";
                 str "tekio"];
     p_dryRun := dry |}.

(** 2^53 - 1, the largest counter from which one step is still exact. *)
Definition lastExactCounter : Z := 9007199254740991.




(** Responses and environments of live calls. *)
Definition rateLimited : Response :=
  {| res_ok := false;
     res_status := 429;
     res_text := Return (str "Too many requests");
     res_json := Throw (Error (str "Unexpected token T in JSON"));
     res_location := None |}.

Definition liveEnv (answer : FetchOutcome) : Env :=
  {| OAUTH_TOKEN := Some (str "lip_4bKx9"); DRY_RUN := None;
     now := leapDayNoon; localTZA := fun _ _ => 0;
     network := fun _ _ => answer; writeFailure := None |}.

Definition brokenBody : Response :=
  {| res_ok := true;
     res_status := 200;
     res_text := Return (str "<html>");
     res_json := Throw (Error (str "Unexpected token < in JSON"));
     res_location := None |}.

Definition redirected : Response :=
  {| res_ok := true;
     res_status := 201;
     res_text := Return (str "{}");
     res_json := Return None;
     res_location := Some (str "/tournament/Qw3rTy12") |}.

Definition noTokenEnv : Env :=
  {| OAUTH_TOKEN := None; DRY_RUN := Some (str "1");
     now := leapDayNoon; localTZA := fun _ _ => 0;
     network := networkFlaky; writeFailure := None |}.


(* ================================================================== *)
(** ** Facts about strings *)

Lemma code_eqb_eq a b : code_eqb a b = true <-> a = b.
Proof. unfold code_eqb. apply N.eqb_eq. Qed.

Lemma eqb_eq s t : JSString.eqb s t = true <-> s = t.
Proof.
  revert t. induction s as [|a s IH]; intros [|b t]; simpl;
    try (split; [discriminate | congruence]); try tauto.
  rewrite andb_true_iff, code_eqb_eq, IH.
  split; [intros [-> ->]; reflexivity | intros H; inversion H; auto].
Qed.

Lemma eqb_refl s : JSString.eqb s s = true.
Proof. apply eqb_eq. reflexivity. Qed.

Lemma eqb_neq s t : JSString.eqb s t = false <-> s <> t.
Proof.
  rewrite <- eqb_eq. destruct (JSString.eqb s t); split; congruence.
Qed.

Lemma startsWith_app pat post : startsWith (pat ++ post) pat = true.
Proof.
  induction pat as [|p pat IH]; simpl; [reflexivity|].
  rewrite IH, andb_true_r. apply code_eqb_eq. reflexivity.
Qed.

Lemma startsWith_inv s pat :
  startsWith s pat = true -> exists post, s = pat ++ post.
Proof.
  revert s. induction pat as [|p pat IH]; intros s H.
  - exists s. reflexivity.
  - destruct s as [|c s]; simpl in H; [discriminate|].
    apply andb_true_iff in H. destruct H as [Hc Hs].
    apply code_eqb_eq in Hc. subst c.
    destruct (IH _ Hs) as [post ->]. exists post. reflexivity.
Qed.

Lemma includes_startsWith s pat :
  startsWith s pat = true -> includes s pat = true.
Proof. intros H. destruct s; simpl; rewrite H; reflexivity. Qed.

Lemma includes_contains s pat : includes s pat = true <-> contains s pat.
Proof.
  split.
  - induction s as [|c s IH]; simpl; intros H.
    + rewrite orb_false_r in H. apply startsWith_inv in H.
      destruct H as [post ->]. exists [], post. reflexivity.
    + apply orb_true_iff in H. destruct H as [H|H].
      * apply startsWith_inv in H. destruct H as [post ->].
        exists [], post. reflexivity.
      * destruct (IH H) as (pre & post & ->).
        exists (c :: pre), post. reflexivity.
  - intros (pre & post & ->). induction pre as [|c pre IH].
    + apply includes_startsWith. exact (startsWith_app pat post).
    + simpl. rewrite IH. apply orb_true_r.
Qed.

Lemma trimStart_nil_iff s : trimStart s = [] <-> whitespaceOnly s.
Proof.
  unfold whitespaceOnly. induction s as [|c s IH]; simpl.
  - split; auto.
  - destruct (isWhiteSpace c) eqn:Hc.
    + rewrite IH. split; [intros H; constructor; assumption |
                          intros H; inversion H; assumption].
    + split; [discriminate | intros H; inversion H; congruence].
Qed.

Lemma trimStart_head s c r : trimStart s = c :: r -> isWhiteSpace c = false.
Proof.
  induction s as [|a s IH]; simpl; [discriminate|].
  destruct (isWhiteSpace a) eqn:Ha; [assumption|].
  intros H. inversion H; subst. assumption.
Qed.

Lemma trim_nil_iff s : trim s = [] <-> whitespaceOnly s.
Proof.
  unfold trim, trimEnd. split.
  - intros H. apply (f_equal (@rev _)) in H.
    rewrite rev_involutive in H. simpl in H.
    apply trimStart_nil_iff in H. unfold whitespaceOnly in H.
    apply Forall_rev in H. rewrite rev_involutive in H.
    apply trimStart_nil_iff.
    destruct (trimStart s) as [|c r] eqn:Hs; [reflexivity|].
    apply trimStart_head in Hs. inversion H; congruence.
  - intros H. apply trimStart_nil_iff in H. rewrite H. reflexivity.
Qed.

Lemma tokenRejected_iff token :
  tokenRejected token = true <-> placeholderToken token.
Proof.
  unfold tokenRejected, placeholderToken.
  rewrite !orb_true_iff, eqb_eq, trim_nil_iff, !includes_contains.
  destruct token; simpl; intuition congruence.
Qed.

(* ================================================================== *)
(** ** Facts about numbers *)

(** Integers up to 2^53 in magnitude are doubles. *)
Lemma round_exact z :
  Z.abs z <= JSNumber.exactLimit -> JSNumber.round z = z.
Proof.
  intros H. unfold JSNumber.round, JSNumber.roundMagnitude.
  apply Z.leb_le in H. rewrite H. destruct z; reflexivity.
Qed.

Lemma add_exact a b :
  Z.abs (a + b) <= JSNumber.exactLimit -> JSNumber.add a b = a + b.
Proof. apply round_exact. Qed.

(** Beyond 2^53 odd integers are no doubles: they round to the
    neighbour with the even significand. *)
Example round_beyond_limit :
  JSNumber.round 9007199254740993 = 9007199254740992 /\
  JSNumber.round 9007199254740995 = 9007199254740996 /\
  JSNumber.round (-9007199254740993) = -9007199254740992 /\
  JSNumber.add (JSNumber.add lastExactCounter 1) 1 = 9007199254740992.
Proof. repeat split. Qed.

(** From a safe counter, the two sequence numbers of a batch are exact. *)
Lemma safeCounter_steps S :
  safeCounter S ->
  JSNumber.add (JSNumber.add S 1) 0 = S + 1 /\
  JSNumber.add (JSNumber.add S 1) 1 = S + 2.
Proof.
  unfold safeCounter, JSNumber.exactLimit. intros H.
  rewrite (add_exact S 1) by (unfold JSNumber.exactLimit; lia).
  rewrite !add_exact by (unfold JSNumber.exactLimit; lia).
  lia.
Qed.

(* ================================================================== *)
(** ** Facts about dates *)

Section DateFacts.

Import JSDate.

Ltac divmod := Z.div_mod_to_equations; lia.

Lemma leapDays_cases y : leapDays y = 0 \/ leapDays y = 1.
Proof. unfold leapDays. destruct (isLeap y); auto. Qed.

Lemma isLeap_true y :
  isLeap y = true <-> (y mod 4 = 0 /\ y mod 100 <> 0) \/ y mod 400 = 0.
Proof.
  unfold isLeap.
  rewrite orb_true_iff, andb_true_iff, negb_true_iff, !Z.eqb_eq, Z.eqb_neq.
  tauto.
Qed.

Lemma DayFromYear_succ y : DayFromYear (y + 1) = DayFromYear y + DaysInYear y.
Proof.
  unfold DaysInYear, leapDays, DayFromYear.
  destruct (isLeap y) eqn:L.
  - apply isLeap_true in L. divmod.
  - assert (N : ~ ((y mod 4 = 0 /\ y mod 100 <> 0) \/ y mod 400 = 0)).
    { rewrite <- isLeap_true. congruence. }
    divmod.
Qed.

Lemma DayFromYear_mono y1 y2 : y1 <= y2 -> DayFromYear y1 <= DayFromYear y2.
Proof. unfold DayFromYear. intros H. divmod. Qed.


(** [YearFromDay] finds the year whose days include [d]. *)
Lemma YearFromDay_bounds d :
  DayFromYear (YearFromDay d) <= d < DayFromYear (YearFromDay d + 1).
Proof.
  unfold YearFromDay.
  set (y0 := 1970 + 400 * d / 146097).
  assert (Hlo : DayFromYear (y0 - 1) <= d).
  { unfold DayFromYear, y0. divmod. }
  assert (Hhi : d < DayFromYear (y0 + 2)).
  { unfold DayFromYear, y0. divmod. }
  destruct (d <? DayFromYear y0) eqn:C1.
  - apply Z.ltb_lt in C1. replace (y0 - 1 + 1) with y0 by lia. lia.
  - apply Z.ltb_ge in C1.
    destruct (DayFromYear (y0 + 1) <=? d) eqn:C2.
    + apply Z.leb_le in C2. replace (y0 + 1 + 1) with (y0 + 2) by lia. lia.
    + apply Z.leb_gt in C2. lia.
Qed.

Lemma YearFromDay_unique y d :
  DayFromYear y <= d < DayFromYear (y + 1) -> YearFromDay d = y.
Proof.
  intros [Hlo Hhi]. pose proof (YearFromDay_bounds d) as [Blo Bhi].
  destruct (Z.lt_trichotomy (YearFromDay d) y) as [H|[H|H]]; [|assumption|].
  - assert (H' : YearFromDay d + 1 <= y) by lia.
    apply DayFromYear_mono in H'. lia.
  - assert (H' : y + 1 <= YearFromDay d) by lia.
    apply DayFromYear_mono in H'. lia.
Qed.

Lemma YearFromDay_mono d1 d2 : d1 <= d2 -> YearFromDay d1 <= YearFromDay d2.
Proof.
  intros H. pose proof (YearFromDay_bounds d1) as [L1 _].
  pose proof (YearFromDay_bounds d2) as [_ H2].
  destruct (Z_lt_le_dec (YearFromDay d2) (YearFromDay d1)) as [C|C];
    [|assumption].
  assert (C' : YearFromDay d2 + 1 <= YearFromDay d1) by lia.
  apply DayFromYear_mono in C'. lia.
Qed.


(** Case analysis on the comparisons of the goal, innermost first. *)
Ltac split_ltb :=
  repeat match goal with
         | |- context [?a <? ?b] =>
             lazymatch a with
             | context [Z.ltb] => fail
             | _ => lazymatch b with
                    | context [Z.ltb] => fail
                    | _ => destruct (Z.ltb_spec a b)
                    end
             end
         end.

Lemma monthOfYearDay_range dwy leap : 0 <= monthOfYearDay dwy leap <= 11.
Proof. unfold monthOfYearDay. split_ltb; lia. Qed.

Lemma DateFromTime_monthStart t :
  DateFromTime t =
  DayWithinYear t - monthStart (MonthFromTime t) (InLeapYear t) + 1.
Proof.
  unfold DateFromTime, MonthFromTime, monthOfYearDay.
  split_ltb; cbv beta iota zeta delta [monthStart]; lia.
Qed.

(** Reading the calendar fields of a time value and building the day
    number back from them is the identity; a day offset carries over. *)
Lemma MakeDay_fields t k :
  MakeDay (YearFromTime t) (MonthFromTime t) (DateFromTime t + k) = Day t + k.
Proof.
  unfold MakeDay.
  pose proof (monthOfYearDay_range (DayWithinYear t) (InLeapYear t)) as Hm.
  fold (MonthFromTime t) in Hm.
  rewrite Z.div_small, Z.mod_small, Z.add_0_r by lia.
  rewrite DateFromTime_monthStart.
  unfold InLeapYear, DayWithinYear. lia.
Qed.


Lemma triple_eq (a a' b b' c c' : Z) :
  a = a' -> b = b' -> c = c' -> (a, b, c) = (a', b', c').
Proof. congruence. Qed.


(** *** Time of day *)

Lemma Day_MakeDate d h m :
  0 <= h < 24 -> 0 <= m < 60 -> Day (MakeDate d (MakeTime h m 0 0)) = d.
Proof.
  intros Hh Hm. unfold Day, MakeDate, MakeTime, msPerDay, msPerHour,
    msPerMinute, msPerSecond.
  Z.div_mod_to_equations. lia.
Qed.

Lemma clock_MakeDate d h m :
  0 <= h < 24 -> 0 <= m < 60 ->
  let t := MakeDate d (MakeTime h m 0 0) in
  HourFromTime t = h /\ MinFromTime t = m /\ SecFromTime t = 0 /\
  msFromTime t = 0.
Proof.
  intros Hh Hm. unfold HourFromTime, MinFromTime, SecFromTime, msFromTime,
    MakeDate, MakeTime, msPerDay, msPerHour, msPerMinute, msPerSecond.
  cbv zeta. repeat split; Z.div_mod_to_equations; lia.
Qed.

End DateFacts.

(** A zone with a fixed offset of at most a day skips no day. *)
Lemma keepsLocalDay_fixed_zone E c d :
  - JSDate.msPerDay <= c <= JSDate.msPerDay ->
  (forall t isUTC, localTZA E t isUTC = c) ->
  keepsLocalDay E d.
Proof.
  intros Hc Hzone. unfold keepsLocalDay. cbv zeta.
  unfold JSDate.LocalTime, JSDate.UTCTime. rewrite !Hzone.
  split; [assumption|]. rewrite Z.sub_add. apply Day_MakeDate; lia.
Qed.

(** A clock in range in a zone of constant offset, at most a day from
    UTC, is a clock the properties below cover. *)
Lemma clockOk_fixed_zone E c :
  JSDate.TimeFromYear 100 <= now E <= JSDate.maxTime - 3 * JSDate.msPerDay ->
  - JSDate.msPerDay <= c <= JSDate.msPerDay ->
  (forall t isUTC, localTZA E t isUTC = c) ->
  clockOk E.
Proof.
  intros Hnow Hc Hzone. unfold clockOk.
  split; [assumption|].
  split; apply (keepsLocalDay_fixed_zone E c); assumption.
Qed.

(* ================================================================== *)
(** ** The schedule generator *)

Section Schedule.

Variable E : Env.
Hypothesis clock : clockOk E.

(** Day number of the current UTC date. *)
Local Abbreviation today := (JSDate.Day (now E)).

Lemma Day_bounds t :
  JSDate.Day t * JSDate.msPerDay <= t <
  JSDate.Day t * JSDate.msPerDay + JSDate.msPerDay.
Proof. unfold JSDate.Day, JSDate.msPerDay. Z.div_mod_to_equations. lia. Qed.

Lemma YearFromDay_100 : JSDate.YearFromDay (JSDate.DayFromYear 100) = 100.
Proof. reflexivity. Qed.

Lemma year_from_100 t : today <= JSDate.Day t -> 100 <= JSDate.YearFromTime t.
Proof.
  intros H. destruct clock as [[Hlo _] _].
  unfold JSDate.YearFromTime. rewrite <- YearFromDay_100.
  apply YearFromDay_mono. apply Z.le_trans with today; [|assumption].
  unfold JSDate.TimeFromYear in Hlo. unfold JSDate.Day.
  apply Z.div_le_lower_bound; [reflexivity | assumption].
Qed.

Lemma MakeFullYear_id y : 100 <= y -> JSDate.MakeFullYear y = y.
Proof.
  intros H. unfold JSDate.MakeFullYear.
  destruct (y <=? 99) eqn:C; [apply Z.leb_le in C; lia|].
  rewrite andb_false_r. reflexivity.
Qed.

Lemma TimeClip_ok t :
  Z.abs t <= JSDate.maxTime -> JSDate.TimeClip t = Some t.
Proof.
  intros H. unfold JSDate.TimeClip. apply Z.leb_le in H. rewrite H.
  reflexivity.
Qed.

(** Time values from the day before today to two days from now are
    valid. *)
Lemma near_now_valid t :
  today * JSDate.msPerDay - JSDate.msPerDay <= t <=
  now E + 2 * JSDate.msPerDay ->
  Z.abs t <= JSDate.maxTime.
Proof.
  intros H. destruct clock as [[Hlo Hhi] _].
  pose proof (Day_bounds (now E)) as Hd.
  change (JSDate.TimeFromYear 100) with (-59011459200000) in Hlo.
  unfold JSDate.maxTime, JSDate.msPerDay in *. lia.
Qed.

Lemma Day_of_midnight d :
  JSDate.Day (JSDate.MakeDate d (JSDate.MakeTime 0 0 0 0)) = d.
Proof. apply Day_MakeDate; lia. Qed.

Lemma keepsLocalDay_near off :
  0 <= off <= 1 -> keepsLocalDay E (today + off).
Proof.
  intros Hoff. destruct clock as (_ & H0 & H1).
  assert (Hcases : off = 0 \/ off = 1) by lia.
  destruct Hcases as [-> | ->]; [rewrite Z.add_0_r|]; assumption.
Qed.

(** [new Date(currentYear, currentMonth - 1, currentDay + dayOffset)]:
    local midnight of the day [dayOffset] days after today's UTC date. *)
Lemma newLocal_today off :
  0 <= off <= 1 ->
  JSDate.newLocal (localTZA E) (JSDate.getUTCFullYear (now E))
    (JSDate.getUTCMonth (now E) + 1 - 1) (JSDate.getUTCDate (now E) + off) =
  Some (JSDate.UTCTime (localTZA E)
          (JSDate.MakeDate (today + off) (JSDate.MakeTime 0 0 0 0))).
Proof.
  intros Hoff.
  unfold JSDate.newLocal, JSDate.getUTCFullYear, JSDate.getUTCMonth,
    JSDate.getUTCDate.
  rewrite MakeFullYear_id by (apply year_from_100; lia).
  replace (JSDate.MonthFromTime (now E) + 1 - 1)
    with (JSDate.MonthFromTime (now E)) by lia.
  rewrite MakeDay_fields. apply TimeClip_ok, near_now_valid.
  destruct (keepsLocalDay_near off Hoff) as [Htz _]. cbv zeta in Htz.
  pose proof (Day_bounds (now E)).
  unfold JSDate.UTCTime.
  unfold JSDate.MakeDate, JSDate.MakeTime, JSDate.msPerDay in *. lia.
Qed.

(** [createTournamentDate] on the fields of a Date of today or
    tomorrow. *)
Lemma createTournamentDate_fields t h m :
  today <= JSDate.Day t <= today + 1 ->
  0 <= h < 24 -> 0 <= m < 60 ->
  createTournamentDate (JSDate.YearFromTime t) (JSDate.MonthFromTime t + 1)
                       (JSDate.DateFromTime t) h m =
  Return (JSDate.toISOString
            (JSDate.MakeDate (JSDate.Day t) (JSDate.MakeTime h m 0 0))).
Proof.
  intros Hd Hh Hm. unfold createTournamentDate, JSDate.UTC.
  rewrite MakeFullYear_id by (apply year_from_100; lia).
  replace (JSDate.MonthFromTime t + 1 - 1)
    with (JSDate.MonthFromTime t) by lia.
  replace (JSDate.DateFromTime t) with (JSDate.DateFromTime t + 0) by lia.
  rewrite MakeDay_fields, Z.add_0_r.
  rewrite TimeClip_ok; [reflexivity|].
  apply near_now_valid. pose proof (Day_bounds (now E)).
  unfold JSDate.MakeDate, JSDate.MakeTime, JSDate.msPerDay, JSDate.msPerHour,
    JSDate.msPerMinute, JSDate.msPerSecond in *.
  lia.
Qed.

Lemma scheduleDay_run n off :
  0 <= off <= 1 ->
  scheduleDay E n (JSDate.getUTCFullYear (now E))
              (JSDate.getUTCMonth (now E) + 1) (JSDate.getUTCDate (now E))
              off =
  Return [descriptor (JSNumber.add n off) Day (today + off) 6;
          descriptor (JSNumber.add n off) Night (today + off) 18].
Proof.
  intros Hoff. unfold scheduleDay. rewrite (newLocal_today off Hoff).
  unfold JSDate.getFullYear, JSDate.getMonth, JSDate.getDate.
  destruct (keepsLocalDay_near off Hoff) as [_ Ht]. cbv zeta in Ht.
  set (t := JSDate.LocalTime (localTZA E)
              (JSDate.UTCTime (localTZA E)
                 (JSDate.MakeDate (today + off) (JSDate.MakeTime 0 0 0 0))))
    in *.
  rewrite !createTournamentDate_fields by lia.
  rewrite Ht. reflexivity.
Qed.

(** The batch [main] generates: two descriptors for today's UTC day, two
    for the day after. *)
Lemma generateTournaments_run st :
  let n := JSNumber.add (lastTournamentDayNum st) 1 in
  generateTournaments E st =
  Return [descriptor (JSNumber.add n 0) Day today 6;
          descriptor (JSNumber.add n 0) Night today 18;
          descriptor (JSNumber.add n 1) Day (today + 1) 6;
          descriptor (JSNumber.add n 1) Night (today + 1) 18].
Proof.
  cbv zeta. unfold generateTournaments, scheduleLoop.
  rewrite (scheduleDay_run _ 0), (scheduleDay_run _ 1) by lia.
  rewrite !Z.add_0_r. reflexivity.
Qed.

End Schedule.

(* ================================================================== *)
(** ** The tournament submitter *)

Section Submitter.

Variable E : Env.

Lemma after_nil w : after w [] = w.
Proof. destruct w. unfold after. simpl. rewrite app_nil_r. reflexivity. Qed.

Lemma after_after w evs evs' : after (after w evs) evs' = after w (evs ++ evs').
Proof. unfold after. simpl. rewrite app_assoc. reflexivity. Qed.

Lemma emit_run e w : emit e w = (Return tt, after w [e]).
Proof. reflexivity. Qed.

Lemma quiet_nil : quiet [].
Proof. repeat split. Qed.

Lemma quiet_app evs evs' : quiet evs -> quiet evs' -> quiet (evs ++ evs').
Proof.
  unfold quiet, writesOf, resultsOf, attemptedOf.
  intros (H1 & H2 & H3) (H1' & H2' & H3').
  rewrite !flat_map_app, H1, H2, H3, H1', H2', H3'. repeat split.
Qed.

(** A rejected token: an immediate failure, the world untouched. *)
Lemma createTeamBattle_rejected params w :
  tokenRejected (p_token params) = true ->
  createTeamBattle E params w = (Return (failure invalidTokenMessage), w).
Proof. intros H. unfold createTeamBattle. rewrite H. reflexivity. Qed.

(** Dry run with an accepted token: three log lines and the synthetic
    URL. *)
Lemma createTeamBattle_dryRun params w :
  tokenRejected (p_token params) = false ->
  p_dryRun params = Some true ->
  createTeamBattle E params w =
  (Return (success (pendingUrl params)),
   after w
     [ConsoleLog (str "[DRY RUN] Would create: " ++ p_name params);
      ConsoleLog (str "[DRY RUN] Start: " ++ p_startDateISO params);
      ConsoleLog (str "[DRY RUN] Teams: " ++
                  join (str ", ")
                       (invitedTeams (p_teams params) (p_hostTeamId params)))]).
Proof.
  intros Ht Hd. unfold createTeamBattle. rewrite Ht, Hd.
  unfold bind, consoleLog, ret. rewrite !emit_run, !after_after. reflexivity.
Qed.

(** [createTeamBattle] never throws and touches nothing but the console
    and the network, which it calls at most once. *)
Lemma createTeamBattle_total params w :
  exists result evs,
    createTeamBattle E params w = (Return result, after w evs) /\
    quiet evs /\ (List.length (fetchesOf evs) <= 1)%nat.
Proof.
  destruct (tokenRejected (p_token params)) eqn:Ht.
  { exists (failure invalidTokenMessage), [].
    rewrite after_nil, createTeamBattle_rejected by assumption.
    repeat split. simpl. lia. }
  assert (Hdry : p_dryRun params = Some true \/ p_dryRun params <> Some true).
  { destruct (p_dryRun params) as [[|]|]; auto; right; discriminate. }
  destruct Hdry as [Hd|Hd].
  { eexists _, _. rewrite createTeamBattle_dryRun by assumption.
    repeat split. simpl. lia. }
  assert (Hlive :
    createTeamBattle E params w =
    tryCatch
      (res <- fetch E (arenaRequest params) ;;
       if negb (res_ok res) then
         errorText <- lift (res_text res) ;;
         consoleError [str "Tournament creation failed:";
                       ofNumber (res_status res); errorText] ;;
         ret (failure (ofNumber (res_status res) ++ str ": " ++ errorText))
       else
         id <- lift (res_json res) ;;
         let u :=
           match id with
           | Some i => p_server params ++ str "/tournament/" ++ i
           | None =>
               match res_location res with
               | Some (c :: l) => c :: l
               | _ => str "unknown"
               end
           end in
         consoleLog [str "Created tournament:"; u] ;;
         ret (success u))
      (fun e =>
         consoleError [str "Network error:"; exnString e] ;;
         ret (failure (exnString e))) w).
  { unfold createTeamBattle. rewrite Ht.
    destruct (p_dryRun params) as [[|]|]; congruence. }
  rewrite Hlive. clear Hlive.
  unfold tryCatch, bind, fetch, lift, consoleLog, consoleError, ret.
  fold (after w [Fetch (arenaRequest params)]).
  destruct (network E _ _) as [e|res];
    [|destruct (res_ok res); cbn [negb];
      [destruct (res_json res) | destruct (res_text res)]];
    rewrite ?emit_run, ?after_after;
    eexists _, _; (split; [reflexivity|]); repeat split; simpl; lia.
Qed.

End Submitter.

(* ================================================================== *)
(** ** The run driver *)

Section Driver.

Variable E : Env.

Lemma bind_Return {A B} (m : M A) (k : A -> M B) w a w' :
  m w = (Return a, w') -> bind m k w = k a w'.
Proof. intros H. unfold bind. rewrite H. reflexivity. Qed.

Lemma bind_Throw {A B} (m : M A) (k : A -> M B) w e w' :
  m w = (Throw e, w') -> bind m k w = (Throw e, w').
Proof. intros H. unfold bind. rewrite H. reflexivity. Qed.

Lemma consoleLog_run args w :
  consoleLog args w = (Return tt, after w [ConsoleLog (join (str " ") args)]).
Proof. reflexivity. Qed.

Lemma consoleError_run args w :
  consoleError args w =
  (Return tt, after w [ConsoleError (join (str " ") args)]).
Proof. reflexivity. Qed.

Lemma writesOf_app a b : writesOf (a ++ b) = writesOf a ++ writesOf b.
Proof. apply flat_map_app. Qed.

Lemma resultsOf_app a b : resultsOf (a ++ b) = resultsOf a ++ resultsOf b.
Proof. apply flat_map_app. Qed.

Lemma attemptedOf_app a b :
  attemptedOf (a ++ b) = attemptedOf a ++ attemptedOf b.
Proof. apply flat_map_app. Qed.

Lemma countOk_cons r rs :
  countOk (r :: rs) = (if ok r then 1 else 0) + countOk rs.
Proof.
  unfold countOk. simpl. destruct (ok r); simpl List.length; lia.
Qed.

Lemma countFailed_cons r rs :
  countFailed (r :: rs) = (if ok r then 0 else 1) + countFailed rs.
Proof.
  unfold countFailed. simpl. destruct (ok r); simpl List.length; lia.
Qed.

Lemma countOk_nonneg rs : 0 <= countOk rs.
Proof. unfold countOk. lia. Qed.

Lemma countFailed_nonneg rs : 0 <= countFailed rs.
Proof. unfold countFailed. lia. Qed.

(** Every submission is tallied once. *)
Lemma counts_total rs : countOk rs + countFailed rs = Z.of_nat (List.length rs).
Proof.
  induction rs as [|r rs IH]; [reflexivity|].
  rewrite countOk_cons, countFailed_cons. simpl List.length.
  destruct (ok r); lia.
Qed.

Lemma countOk_pos rs : 0 < countOk rs <-> Exists succeeded rs.
Proof.
  induction rs as [|r rs IH].
  - split; [unfold countOk; simpl; lia | intros H; inversion H].
  - rewrite countOk_cons, Exists_cons. unfold succeeded at 1.
    pose proof (countOk_nonneg rs). destruct (ok r).
    + split; [auto | lia].
    + rewrite <- IH.
      split; [intros; right; lia | intros [?|?]; [discriminate | lia]].
Qed.

Lemma countFailed_pos rs : 0 < countFailed rs <-> Exists failed rs.
Proof.
  induction rs as [|r rs IH].
  - split; [unfold countFailed; simpl; lia | intros H; inversion H].
  - rewrite countFailed_cons, Exists_cons. unfold failed at 1.
    pose proof (countFailed_nonneg rs). destruct (ok r).
    + rewrite <- IH.
      split; [intros; right; lia | intros [?|?]; [discriminate | lia]].
    + split; [auto | lia].
Qed.

(** The submission loop attempts every descriptor in order, whatever the
    earlier outcomes, and writes nothing. *)
Lemma submitLoop_run oauthToken ts : forall i tally w,
  exists rs evs,
    submitLoop E oauthToken i ts tally w =
    (Return {| successCount := successCount tally + countOk rs;
               failureCount := failureCount tally + countFailed rs |},
     after w evs) /\
    writesOf evs = [] /\ resultsOf evs = rs /\ attemptedOf evs = ts /\
    List.length rs = List.length ts.
Proof.
  induction ts as [|t ts IH]; intros i tally w.
  - exists [], []. rewrite after_nil. cbn [submitLoop]. unfold ret, countOk,
      countFailed. simpl. rewrite !Z.add_0_r. destruct tally. repeat split.
  - cbn [submitLoop].
    erewrite bind_Return by apply consoleLog_run.
    erewrite bind_Return by apply consoleLog_run.
    erewrite bind_Return by apply consoleLog_run.
    rewrite !after_after.
    set (w1 := after w _).
    assert (Hwait : exists evs1, quiet evs1 /\
      (if (0 <? i)%nat
       then consoleLog [str "Waiting 10 seconds to avoid rate limits..."] ;;
            sleep 10000
       else ret tt) w1 = (Return tt, after w1 evs1)).
    { destruct (0 <? i)%nat.
      - eexists. split; [|unfold bind, sleep; rewrite consoleLog_run, emit_run,
          after_after; reflexivity]. repeat split.
      - exists []. rewrite after_nil. split; [apply quiet_nil | reflexivity]. }
    destruct Hwait as (evs1 & Hq1 & Hwait).
    erewrite bind_Return by apply Hwait.
    destruct (createTeamBattle_total E (paramsFor E oauthToken t) (after w1 evs1))
      as (r & evs2 & Hc & Hq2 & _).
    erewrite bind_Return by apply Hc.
    erewrite bind_Return by apply emit_run.
    set (tally' := {| successCount := successCount tally + (if ok r then 1 else 0);
                      failureCount := failureCount tally + (if ok r then 0 else 1) |}).
    assert (Hcount : exists evs3, quiet evs3 /\
      (if ok r
       then consoleLog [slotName (type t) ++ str " battle created successfully"] ;;
            ret {| successCount := successCount tally + 1;
                   failureCount := failureCount tally |}
       else consoleError [str "Failed to create " ++ slotName (type t) ++
                          str " battle: " ++
                          match error r with
                          | Some m => m
                          | None => str "undefined"
                          end] ;;
            ret {| successCount := successCount tally;
                   failureCount := failureCount tally + 1 |})
        (after (after (after w1 evs1) evs2) [Submitted t r]) =
      (Return tally', after (after (after (after w1 evs1) evs2) [Submitted t r]) evs3)).
    { unfold tally'. destruct (ok r).
      - eexists. split; [|unfold bind, ret; rewrite consoleLog_run;
          rewrite !Z.add_0_r; reflexivity]. repeat split.
      - eexists. split; [|unfold bind, ret; rewrite consoleError_run;
          rewrite !Z.add_0_r; reflexivity]. repeat split. }
    destruct Hcount as (evs3 & Hq3 & Hcount).
    erewrite bind_Return by apply Hcount.
    destruct (IH (S i) tally'
                 (after (after (after (after w1 evs1) evs2) [Submitted t r]) evs3))
      as (rs & evs4 & Hloop & Hw & Hr & Ha & Hlen).
    rewrite Hloop. unfold w1. rewrite !after_after.
    exists (r :: rs). eexists. split; [|split; [|split; [|split]]].
    + f_equal. f_equal. rewrite countOk_cons, countFailed_cons.
      unfold tally'. cbn [successCount failureCount]. f_equal; lia.
    + destruct Hq1 as (Hq1 & _), Hq2 as (Hq2 & _), Hq3 as (Hq3 & _).
      rewrite !writesOf_app, Hq1, Hq2, Hq3, Hw. reflexivity.
    + destruct Hq1 as (_ & Hq1 & _), Hq2 as (_ & Hq2 & _), Hq3 as (_ & Hq3 & _).
      rewrite !resultsOf_app, Hq1, Hq2, Hq3, Hr. reflexivity.
    + destruct Hq1 as (_ & _ & Hq1), Hq2 as (_ & _ & Hq2), Hq3 as (_ & _ & Hq3).
      rewrite !attemptedOf_app, Hq1, Hq2, Hq3, Ha. reflexivity.
    + simpl. congruence.
Qed.

(** Reading the state never fails the run: an unreadable file gives the
    default and a warning. *)
Lemma loadState_run w :
  exists evs,
    tryCatch (readJSON stateFilePath)
      (fun _ =>
         consoleWarn [str "Could not read " ++ stateFilePath ++
                      str ", starting from Day 24"] ;;
         ret {| lastTournamentDayNum := 24 |}) w =
    (Return (loadedState (stateFile w)), after w evs) /\ quiet evs.
Proof.
  unfold tryCatch, readJSON. rewrite eqb_refl.
  destruct (stateFile w) as [st|]; cbn [loadedState].
  - exists []. rewrite after_nil. split; [reflexivity | apply quiet_nil].
  - eexists. unfold bind, consoleWarn, ret. rewrite emit_run.
    split; [reflexivity | repeat split].
Qed.

(** The shape of a generated batch, whatever the clock: either a Date is
    out of range, or there are two descriptors for each of two
    consecutive sequence numbers. *)
Lemma generateTournaments_shape st e_or_ts :
  generateTournaments E st = e_or_ts ->
  match e_or_ts with
  | Throw _ => True
  | Return ts =>
      let n := JSNumber.add (lastTournamentDayNum st) 1 in
      exists s1 s2 s3 s4,
        ts = [descriptorAt (JSNumber.add n 0) Day s1;
              descriptorAt (JSNumber.add n 0) Night s2;
              descriptorAt (JSNumber.add n 1) Day s3;
              descriptorAt (JSNumber.add n 1) Night s4]
  end.
Proof.
  intros <-. unfold generateTournaments, scheduleLoop, scheduleDay.
  repeat match goal with
         | |- context [match ?x with _ => _ end] =>
             lazymatch x with
             | context [match _ with _ => _ end] => fail
             | _ => destruct x
             end
         end; try exact I.
  cbv zeta. do 4 eexists. reflexivity.
Qed.

Lemma MathMax_batch n s1 s2 s3 s4 :
  MathMax (map dayNum [descriptorAt n Day s1; descriptorAt n Night s2;
                       descriptorAt (n + 1) Day s3;
                       descriptorAt (n + 1) Night s4]) = Some (n + 1).
Proof. cbn. f_equal. lia. Qed.

Lemma generateTournaments_length st ts :
  generateTournaments E st = Return ts -> List.length ts = 4%nat.
Proof.
  intros Hgen. apply generateTournaments_shape in Hgen.
  destruct Hgen as (s1 & s2 & s3 & s4 & ->). reflexivity.
Qed.

Lemma after_init_trace f evs : trace (after (initWorld f) evs) = evs.
Proof. reflexivity. Qed.

Ltac shape_facts Hres Hatt Hwr :=
  cbn [trace stateFile after initWorld];
  try apply last_last;
  rewrite ?writesOf_app, ?resultsOf_app, ?attemptedOf_app, ?Hres, ?Hatt, ?Hwr;
  cbn [writesOf resultsOf attemptedOf flat_map app];
  rewrite ?app_nil_r, ?Hres.

Lemma main_shape_of f status w' :
  main E (initWorld f) = (status, w') -> RunShape E f status w'.
Proof.
  unfold main, mainBody. intros Hmain.
  destruct (OAUTH_TOKEN E) as [[|c rest]|] eqn:Htok.
  1, 3: (unfold throw in Hmain; rewrite consoleError_run in Hmain;
         injection Hmain as <- <-;
         apply RunAborted; try reflexivity;
         left; intros (c' & rest' & H); congruence).
  assert (Htoken : tokenSet E) by (exists c, rest; assumption).
  set (oauthToken := c :: rest) in *.
  destruct (loadState_run (initWorld f)) as (evs0 & Hload & Hq0).
  cbn [initWorld stateFile] in Hload.
  erewrite bind_Return in Hmain by apply Hload.
  destruct (generateTournaments E (loadedState f)) as [ts|e] eqn:Hgen.
  2: { erewrite bind_Throw in Hmain by reflexivity.
       rewrite consoleError_run, after_after in Hmain.
       injection Hmain as <- <-.
       destruct Hq0 as (Hw0 & Hr0 & Ha0).
       apply RunAborted; rewrite ?after_init_trace, ?writesOf_app,
         ?resultsOf_app, ?attemptedOf_app, ?Hw0, ?Hr0, ?Ha0; try reflexivity.
       right. exists e. assumption. }
  erewrite bind_Return in Hmain by reflexivity.
  erewrite bind_Return in Hmain by apply consoleLog_run.
  erewrite bind_Return in Hmain by apply consoleLog_run.
  rewrite !after_after in Hmain.
  set (evs1 := evs0 ++ _) in Hmain.
  assert (Hq1 : quiet evs1).
  { unfold evs1. apply quiet_app; [assumption|]. repeat split. }
  clearbody evs1.
  destruct (submitLoop_run oauthToken ts 0%nat
              {| successCount := 0; failureCount := 0 |}
              (after (initWorld f) evs1))
    as (rs & evs2 & Hloop & Hw2 & Hr2 & Ha2 & Hlen).
  erewrite bind_Return in Hmain by apply Hloop.
  cbn [successCount failureCount] in Hmain.
  rewrite !Z.add_0_l, after_after in Hmain.
  destruct Hq1 as (Hw1 & Hr1 & Ha1).
  assert (Hres : resultsOf (evs1 ++ evs2) = rs)
    by (rewrite resultsOf_app, Hr1, Hr2; reflexivity).
  assert (Hatt : attemptedOf (evs1 ++ evs2) = ts)
    by (rewrite attemptedOf_app, Ha1, Ha2; reflexivity).
  assert (Hwr : writesOf (evs1 ++ evs2) = [])
    by (rewrite writesOf_app, Hw1, Hw2; reflexivity).
  set (evs := evs1 ++ evs2) in *. clearbody evs.
  clear Hloop Hload Hw1 Hr1 Ha1 Hw2 Hr2 Ha2.
  destruct (0 <? countOk rs) eqn:Hsc.
  - (* at least one success: the state is written *)
    apply Z.ltb_lt in Hsc.
    destruct (MathMax (map dayNum ts)) as [maxDayNum|] eqn:Hmax.
    2: { destruct ts; [|discriminate]. destruct rs; [|discriminate].
         unfold countOk in Hsc. simpl in Hsc. lia. }
    unfold writeFileSync in Hmain.
    destruct (writeFailure E) as [e|] eqn:Hwf.
    + erewrite bind_Throw in Hmain;
        [|unfold bind; cbn [trace stateFile after]; reflexivity].
      rewrite consoleError_run in Hmain. injection Hmain as <- <-.
      apply RunWriteFailed with ts maxDayNum e; shape_facts Hres Hatt Hwr;
        auto.
    + unfold bind at 1 in Hmain. unfold bind at 1 in Hmain.
      cbn [trace stateFile after initWorld] in Hmain.
      rewrite eqb_refl in Hmain.
      repeat (unfold bind at 1 in Hmain; rewrite consoleLog_run in Hmain).
      unfold ret in Hmain.
      destruct (0 <? countFailed rs) eqn:Hfc; injection Hmain as <- <-;
        apply RunWritten with ts maxDayNum; shape_facts Hres Hatt Hwr;
        rewrite ?Hfc; auto.
  - (* no success: nothing is written *)
    apply Z.ltb_ge in Hsc. pose proof (countOk_nonneg rs).
    unfold bind at 1 in Hmain. unfold ret at 1 in Hmain.
    repeat (unfold bind at 1 in Hmain; rewrite consoleLog_run in Hmain).
    unfold ret in Hmain.
    destruct (0 <? countFailed rs) eqn:Hfc; injection Hmain as <- <-;
      apply RunNoSuccess with ts; shape_facts Hres Hatt Hwr;
      rewrite ?Hfc; auto; lia.
Qed.

(** Every run of [main] has one of the four shapes. *)
Lemma main_shape f :
  RunShape E f (fst (main E (initWorld f))) (snd (main E (initWorld f))).
Proof. apply main_shape_of. destruct (main E (initWorld f)); reflexivity. Qed.

End Driver.

(* ================================================================== *)
(** ** Properties of the schedule generator *)


(** The ISO string of [h]:[m] UTC on day number [d] shows the calendar
    date of that day and exactly that time. *)
Lemma toISOString_MakeDate d h m y mo da :
  0 <= h < 24 -> 0 <= m < 60 ->
  utcDate (JSDate.MakeDate d (JSDate.MakeTime h m 0 0)) = (y, mo, da) ->
  JSDate.toISOString (JSDate.MakeDate d (JSDate.MakeTime h m 0 0)) =
  JSDate.isoFormat y mo da h m 0 0.
Proof.
  intros Hh Hm Hd. unfold JSDate.toISOString.
  destruct (clock_MakeDate d h m Hh Hm) as (-> & -> & -> & ->).
  unfold utcDate, JSDate.getUTCFullYear, JSDate.getUTCMonth,
    JSDate.getUTCDate in Hd.
  injection Hd as -> -> ->. reflexivity.
Qed.

(** C1 as stated fails: from the counter 2^53 - 1 the sums round, and
    the four descriptors all get the number 2^53. *)
Lemma batch_sequence_numbers_counterexample :
  let S := lastExactCounter in
  ~ (exists t1 t2 t3 t4,
       generateTournaments dryRunEnv {| lastTournamentDayNum := S |} =
         Return [t1; t2; t3; t4] /\
       map (fun t => (dayNum t, type t)) [t1; t2; t3; t4] =
         [(S + 1, Day); (S + 1, Night); (S + 2, Day); (S + 2, Night)]).
Proof.
  cbv zeta. intros (t1 & t2 & t3 & t4 & Hgen & Hnum).
  vm_compute in Hgen. injection Hgen as <- <- <- <-.
  vm_compute in Hnum. discriminate Hnum.
Qed.

(** C1, amended. For every whole-number counter value S from -2^53 to
    2^53 - 2 read from the state: the schedule generator returns a batch
    for every clock in range, and whenever it returns one, whatever the
    clock and the zone, the batch has exactly four descriptors, numbered
    S+1, S+1, S+2, S+2, in the order Day, Night, Day, Night; these are
    the descriptors a run submits. *)
Theorem batch_sequence_numbers (E : Env) (file : option TournamentState)
    (Hsafe : safeCounter (lastTournamentDayNum (loadedState file))) :
  let S := lastTournamentDayNum (loadedState file) in
  (clockOk E ->
   exists ts, generateTournaments E (loadedState file) = Return ts) /\
  (forall ts,
     generateTournaments E (loadedState file) = Return ts ->
     exists t1 t2 t3 t4,
       ts = [t1; t2; t3; t4] /\
       map (fun t => (dayNum t, type t)) ts =
         [(S + 1, Day); (S + 1, Night); (S + 2, Day); (S + 2, Night)] /\
       (tokenSet E ->
        attemptedOf (trace (snd (main E (initWorld file)))) = ts)).
Proof.
  cbv zeta. split.
  - intros Hclock. eexists. apply (generateTournaments_run E Hclock).
  - intros ts Hgen.
    destruct (generateTournaments_shape E _ _ Hgen) as (s1 & s2 & s3 & s4 & Hts).
    do 4 eexists. split; [exact Hts|]. split.
    + rewrite Hts. cbn [map dayNum type descriptorAt].
      destruct (safeCounter_steps _ Hsafe) as [-> ->]. reflexivity.
    + intros Htok. destruct (main_shape E file); try congruence.
      destruct Hcause as [Hno|[e He]]; [contradiction | congruence].
Qed.

Lemma batch_sequence_numbers_witness :
  safeCounter 7 /\
  exists t1 t2 t3 t4,
    generateTournaments dryRunEnv {| lastTournamentDayNum := 7 |} =
      Return [t1; t2; t3; t4] /\
    map (fun t => (dayNum t, type t)) [t1; t2; t3; t4] =
      [(8, Day); (8, Night); (9, Day); (9, Night)].
Proof.
  assert (Hclock : clockOk dryRunEnv) by (vm_compute; repeat split; easy).
  assert (Hsafe : safeCounter 7) by (vm_compute; repeat split; easy).
  split; [exact Hsafe|].
  destruct (batch_sequence_numbers dryRunEnv
              (Some {| lastTournamentDayNum := 7 |}) Hsafe)
    as [Hreturns Hnumbers].
  destruct (Hreturns Hclock) as (ts & Hgen).
  destruct (Hnumbers ts Hgen) as (t1 & t2 & t3 & t4 & Hts & Hnum & _).
  exists t1, t2, t3, t4. rewrite <- Hts. split; [exact Hgen | exact Hnum].
Defined.




(** The year rolls over after 31 December. *)
Example new_years_eve_batch :
  exists t1 t2 t3 t4,
    generateTournaments offlineEnv {| lastTournamentDayNum := 24 |} =
      Return [t1; t2; t3; t4] /\
    map startDateISO [t1; t2; t3; t4] =
      [str "2024-12-31T06:58:00.000Z"; str "2024-12-31T18:58:00.000Z";
       str "2025-01-01T06:58:00.000Z"; str "2025-01-01T18:58:00.000Z"] /\
    map name [t1; t2; t3; t4] =
      [str "LMAO Day '25' Team Battle"; str "LMAO Night '25' Team Battle";
       str "LMAO Day '26' Team Battle"; str "LMAO Night '26' Team Battle"].
Proof. do 4 eexists. split; [vm_compute; reflexivity|]. split; reflexivity. Qed.

(* ================================================================== *)
(** ** Properties of the tournament submitter *)

(** C4. A token that is empty or contains [YOUR_TOKEN] or [***] makes the
    call return the authentication failure at once: the world is as it
    was, so no request has gone out. *)
Theorem placeholder_token_fails_without_network (E : Env) (params : Params)
    (w : World)
    (Htoken : p_token params = [] \/
              contains (p_token params) (str "YOUR_TOKEN") \/
              contains (p_token params) (str "***")) :
  createTeamBattle E params w = (Return (failure invalidTokenMessage), w) /\
  fetchesOf (trace (snd (createTeamBattle E params w))) = fetchesOf (trace w).
Proof.
  assert (H : createTeamBattle E params w =
              (Return (failure invalidTokenMessage), w)).
  { apply createTeamBattle_rejected, tokenRejected_iff.
    unfold placeholderToken. tauto. }
  rewrite H. split; reflexivity.
Qed.

Lemma placeholder_token_fails_without_network_witness :
  contains (str "Bearer YOUR_TOKEN_HERE") (str "YOUR_TOKEN") /\
  createTeamBattle offlineEnv
    (sampleParams (str "Bearer YOUR_TOKEN_HERE") (Some false))
    (initWorld None) =
  (Return (failure invalidTokenMessage), initWorld None).
Proof.
  assert (H : contains (str "Bearer YOUR_TOKEN_HERE") (str "YOUR_TOKEN")).
  { exists (str "Bearer "), (str "_HERE"). reflexivity. }
  split; [exact H|].
  apply (placeholder_token_fails_without_network offlineEnv
           (sampleParams (str "Bearer YOUR_TOKEN_HERE") (Some false))
           (initWorld None)).
  right. left. exact H.
Defined.

(** C9. The token check comes before the dry-run branch: an empty,
    whitespace-only or placeholder token gives the failure result
    whatever [dryRun] says, so also in a dry run. *)
Theorem token_check_precedes_dry_run (E : Env) (params : Params) (w : World)
    (Htoken : placeholderToken (p_token params)) :
  exists result,
    createTeamBattle E params w = (Return result, w) /\
    ok result = false /\
    error result = Some invalidTokenMessage /\
    result <> success (pendingUrl params).
Proof.
  exists (failure invalidTokenMessage). split; [|split; [|split]].
  - apply createTeamBattle_rejected, tokenRejected_iff. assumption.
  - reflexivity.
  - reflexivity.
  - discriminate.
Qed.

Lemma token_check_precedes_dry_run_witness :
  whitespaceOnly [32%N; 9%N; 160%N] /\
  exists result,
    createTeamBattle dryRunEnv (sampleParams [32%N; 9%N; 160%N] (Some true))
                     (initWorld None) = (Return result, initWorld None) /\
    ok result = false.
Proof.
  assert (H : whitespaceOnly [32%N; 9%N; 160%N]).
  { repeat constructor. }
  split; [exact H|].
  destruct (token_check_precedes_dry_run dryRunEnv
              (sampleParams [32%N; 9%N; 160%N] (Some true)) (initWorld None))
    as (result & Hrun & Hok & _).
  - right. left. exact H.
  - exists result. split; [exact Hrun | exact Hok].
Defined.

(** C5 as stated fails: in a dry run with an empty token the call does not
    report success. *)
Lemma dry_run_success_counterexample :
  let params := sampleParams [] (Some true) in
  ~ (p_dryRun params = Some true ->
     exists result w',
       createTeamBattle dryRunEnv params (initWorld None) = (Return result, w') /\
       ok result = true /\ url result = Some (pendingUrl params)).
Proof.
  cbv zeta. intros H. destruct (H eq_refl) as (result & w' & Hrun & Hok & _).
  vm_compute in Hrun. injection Hrun as <- _. discriminate.
Qed.

(** C5, amended. In a dry run no request goes out and nothing is written;
    the result is the success with the URL
    [{server}/team/{hostTeamId}/arena/pending] when the token passes the
    validity check, and the authentication failure when it does not. *)
Theorem dry_run_makes_no_request (E : Env) (params : Params) (w : World)
    (Hdry : p_dryRun params = Some true) :
  exists result w',
    createTeamBattle E params w = (Return result, w') /\
    fetchesOf (trace w') = fetchesOf (trace w) /\
    stateFile w' = stateFile w /\
    (~ placeholderToken (p_token params) ->
     result = {| ok := true;
                 url := Some (p_server params ++ str "/team/" ++
                              p_hostTeamId params ++ str "/arena/pending");
                 error := None |}) /\
    (placeholderToken (p_token params) ->
     result = failure invalidTokenMessage).
Proof.
  destruct (tokenRejected (p_token params)) eqn:Ht.
  - exists (failure invalidTokenMessage), w.
    rewrite createTeamBattle_rejected by assumption.
    apply tokenRejected_iff in Ht. repeat split; tauto.
  - assert (Hn : ~ placeholderToken (p_token params)).
    { rewrite <- tokenRejected_iff. congruence. }
    eexists _, _. rewrite createTeamBattle_dryRun by assumption.
    split; [reflexivity|]. cbn [after trace stateFile].
    unfold fetchesOf. rewrite flat_map_app. cbn [flat_map app].
    rewrite app_nil_r. repeat split; solve [reflexivity | contradiction].
Qed.

Lemma dry_run_makes_no_request_witness :
  exists w',
    createTeamBattle dryRunEnv (sampleParams (str "lip_4bKx9") (Some true))
                     (initWorld None) =
    (Return (success (str "https://lichess.org/team/lmao-teamfights/arena/pending")),
     w') /\
    fetchesOf (trace w') = [].
Proof.
  destruct (dry_run_makes_no_request dryRunEnv
              (sampleParams (str "lip_4bKx9") (Some true)) (initWorld None)
              eq_refl)
    as (result & w' & Hrun & Hfetch & _ & Hvalid & _).
  exists w'. rewrite Hrun. split; [|exact Hfetch].
  rewrite Hvalid; [reflexivity|].
  rewrite <- tokenRejected_iff. vm_compute. discriminate.
Defined.

Lemma Subseq_filter {A} (f : A -> bool) l : Subseq (filter f l) l.
Proof.
  induction l as [|x l IH]; simpl; [constructor|].
  destruct (f x); constructor; assumption.
Qed.

Lemma count_occ_filter (f : jsstring -> bool) l t :
  f t = true ->
  count_occ jsstring_eq_dec (filter f l) t = count_occ jsstring_eq_dec l t.
Proof.
  intros Ht. induction l as [|x l IH]; simpl; [reflexivity|].
  destruct (jsstring_eq_dec x t) as [->|Hne].
  - rewrite Ht. simpl. destruct (jsstring_eq_dec t t); congruence.
  - destruct (f x); simpl; [|assumption].
    destruct (jsstring_eq_dec x t); congruence.
Qed.

Lemma invited_iff teams host t :
  In t (invitedTeams teams host) <-> In t teams /\ t <> [] /\ t <> host.
Proof.
  unfold invitedTeams.
  rewrite filter_In, andb_true_iff, !negb_true_iff, eqb_neq.
  destruct t; simpl; intuition congruence.
Qed.

(** C6 as stated fails: a team id configured twice is invited twice. *)
Lemma invited_teams_counterexample :
  let teams := [str "rare"; str "tekio"; str "rare"] in
  let host := str "lmao-teamfights" in
  ~ (~ In host (invitedTeams teams host) /\
     Subseq (invitedTeams teams host) teams /\
     NoDup (invitedTeams teams host)).
Proof.
  cbv zeta. intros (_ & _ & Hnodup). vm_compute in Hnodup.
  inversion Hnodup as [|x l Hin _]; subst. apply Hin. right. left. reflexivity.
Qed.

(** C6, amended. The invited-teams list never contains the host team id
    (nor an empty id) and keeps the other configured ids in their order,
    each as many times as it is configured: nothing is deduplicated, so
    the list is free of repetitions when the configured list is. *)
Theorem invited_teams_exclude_host (teams : list jsstring) (host : jsstring) :
  ~ In host (invitedTeams teams host) /\
  ~ In [] (invitedTeams teams host) /\
  Subseq (invitedTeams teams host) teams /\
  (forall t, t <> [] -> t <> host ->
     count_occ jsstring_eq_dec (invitedTeams teams host) t =
     count_occ jsstring_eq_dec teams t) /\
  (NoDup teams -> NoDup (invitedTeams teams host)).
Proof.
  split; [|split; [|split; [|split]]].
  - rewrite invited_iff. tauto.
  - rewrite invited_iff. tauto.
  - apply Subseq_filter.
  - intros t Hne Hhost. apply count_occ_filter.
    apply eqb_neq in Hhost. rewrite Hhost. destruct t; [congruence|reflexivity].
  - apply NoDup_filter.
Qed.

(** The invitations of the built-in configuration. *)
Example configured_invitations :
  invitedTeams (teams (config dryRunEnv)) (hostTeamId (config dryRunEnv)) =
  [str "darkonteams"; str "rare"; str "tekio"].
Proof. reflexivity. Qed.

(* ================================================================== *)
(** ** Properties of the run driver *)

Lemma Forall_failed_countOk rs : Forall failed rs -> countOk rs = 0.
Proof.
  induction 1 as [|r rs Hr _ IH]; [reflexivity|].
  rewrite countOk_cons, IH. unfold failed in Hr. rewrite Hr. reflexivity.
Qed.


(** What a batch that is attempted looks like, from a safe counter. *)
Lemma attempted_batch E file ts :
  generateTournaments E (loadedState file) = Return ts ->
  safeCounter (lastTournamentDayNum (loadedState file)) ->
  let S := lastTournamentDayNum (loadedState file) in
  map dayNum ts = [S + 1; S + 1; S + 2; S + 2] /\
  MathMax (map dayNum ts) = Some (S + 2).
Proof.
  intros Hgen Hsafe. apply generateTournaments_shape in Hgen.
  destruct Hgen as (s1 & s2 & s3 & s4 & ->). cbv zeta.
  destruct (safeCounter_steps _ Hsafe) as [-> ->].
  replace (lastTournamentDayNum (loadedState file) + 2)
    with (lastTournamentDayNum (loadedState file) + 1 + 1) by lia.
  rewrite MathMax_batch. split; reflexivity.
Qed.

(** C2 as stated fails: with a full disk all four submissions succeed
    and the persisted counter stays at 24; and from the counter 2^53 - 1
    the persisted maximum is the old counter plus one. *)
Lemma state_advances_counterexample :
  (let w' := snd (main diskFullEnv
                       (initWorld (Some {| lastTournamentDayNum := 24 |}))) in
   Exists succeeded (resultsOf (trace w')) /\
   stateFile w' <> Some {| lastTournamentDayNum := 24 + 2 |}) /\
  (let w' := snd (main dryRunEnv
                       (initWorld
                          (Some {| lastTournamentDayNum := lastExactCounter |}))) in
   Exists succeeded (resultsOf (trace w')) /\
   stateFile w' <> Some {| lastTournamentDayNum := lastExactCounter + 2 |}).
Proof.
  cbv zeta. split.
  - split; [vm_compute; apply Exists_cons_hd; reflexivity|].
    vm_compute. discriminate.
  - split; [vm_compute; apply Exists_cons_hd; reflexivity|].
    vm_compute. discriminate.
Qed.

(** C2, amended. After a run with at least one successful submission,
    whichever and however many they are, whose state write does not
    throw, from a whole-number counter S between -2^53 and 2^53 - 2: the
    state file is written once, with the largest sequence number of the
    four attempted descriptors, which is S + 2, and that is the
    persisted state. *)
Theorem state_advances_on_any_success (E : Env)
    (file : option TournamentState)
    (Hsuccess : Exists succeeded
                  (resultsOf (trace (snd (main E (initWorld file))))))
    (Hwrite : writeFailure E = None)
    (Hsafe : safeCounter (lastTournamentDayNum (loadedState file))) :
  let w' := snd (main E (initWorld file)) in
  let S := lastTournamentDayNum (loadedState file) in
  List.length (resultsOf (trace w')) = 4%nat /\
  map dayNum (attemptedOf (trace w')) = [S + 1; S + 1; S + 2; S + 2] /\
  MathMax (map dayNum (attemptedOf (trace w'))) = Some (S + 2) /\
  writesOf (trace w') = [{| lastTournamentDayNum := S + 2 |}] /\
  stateFile w' = Some {| lastTournamentDayNum := S + 2 |}.
Proof.
  cbv zeta. apply countOk_pos in Hsuccess.
  destruct (main_shape E file).
  - rewrite Hresults in Hsuccess. unfold countOk in Hsuccess.
    simpl in Hsuccess. lia.
  - lia.
  - destruct (attempted_batch E file ts Hbatch Hsafe) as (Hnums & Hmax').
    rewrite Hlength, Hattempted, Hwrites, Hfile.
    assert (maxDayNum = lastTournamentDayNum (loadedState file) + 2)
      by congruence. subst maxDayNum.
    rewrite (generateTournaments_length E _ ts Hbatch).
    repeat split; assumption.
  - congruence.
Qed.

Lemma state_advances_on_any_success_witness :
  let w' := snd (main flakyEnv
                      (initWorld (Some {| lastTournamentDayNum := 40 |}))) in
  safeCounter 40 /\
  map ok (resultsOf (trace w')) = [false; true; true; true] /\
  stateFile w' = Some {| lastTournamentDayNum := 42 |}.
Proof.
  cbv zeta.
  assert (Hsafe : safeCounter 40) by (vm_compute; repeat split; easy).
  split; [exact Hsafe|]. split; [vm_compute; reflexivity|].
  apply (state_advances_on_any_success flakyEnv
           (Some {| lastTournamentDayNum := 40 |})).
  - vm_compute. apply Exists_cons_tl, Exists_cons_hd. reflexivity.
  - reflexivity.
  - exact Hsafe.
Defined.

(** C8. After a run in which no submission succeeded, the state file is
    as it was and no write of it was attempted. *)
Theorem no_success_leaves_state_file (E : Env)
    (file : option TournamentState)
    (Hnone : Forall failed
               (resultsOf (trace (snd (main E (initWorld file)))))) :
  stateFile (snd (main E (initWorld file))) = file /\
  writesOf (trace (snd (main E (initWorld file)))) = [].
Proof.
  apply Forall_failed_countOk in Hnone.
  destruct (main_shape E file); try lia; split; assumption.
Qed.

Lemma no_success_leaves_state_file_witness :
  let file := Some {| lastTournamentDayNum := 31 |} in
  let w' := snd (main offlineEnv (initWorld file)) in
  map ok (resultsOf (trace w')) = [false; false; false; false] /\
  stateFile w' = file /\ writesOf (trace w') = [].
Proof.
  cbv zeta. split; [vm_compute; reflexivity|].
  apply (no_success_leaves_state_file offlineEnv
           (Some {| lastTournamentDayNum := 31 |})).
  vm_compute. repeat constructor.
Defined.

(** C10. When the state-file write throws, the handler of [main] logs the
    error and the process exits with status 1, however many submissions
    succeeded, all four included. *)
Theorem failed_state_write_exits_1 (E : Env) (file : option TournamentState)
    (e : Exn)
    (Hwrite : writeFailure E = Some e)
    (Hsuccess : Exists succeeded
                  (resultsOf (trace (snd (main E (initWorld file)))))) :
  fst (main E (initWorld file)) = 1 /\
  last (trace (snd (main E (initWorld file)))) (Sleep 0) = fatalError e /\
  stateFile (snd (main E (initWorld file))) = file.
Proof.
  apply countOk_pos in Hsuccess.
  destruct (main_shape E file).
  - rewrite Hresults in Hsuccess. unfold countOk in Hsuccess.
    simpl in Hsuccess. lia.
  - lia.
  - congruence.
  - assert (e0 = e) by congruence. subst e0. repeat split; assumption.
Qed.

Lemma failed_state_write_exits_1_witness :
  let run := main diskFullEnv (initWorld None) in
  map ok (resultsOf (trace (snd run))) = [true; true; true; true] /\
  fst run = 1.
Proof.
  cbv zeta. split; [vm_compute; reflexivity|].
  apply (failed_state_write_exits_1 diskFullEnv None
           (SystemError (str "ENOSPC: no space left on device"))).
  - reflexivity.
  - vm_compute. apply Exists_cons_hd. reflexivity.
Defined.




(* ================================================================== *)
(** ** Numbers in names *)

Lemma uint_digits_inj u : forall v, uint_digits u = uint_digits v -> u = v.
Proof.
  induction u as [|u IH|u IH|u IH|u IH|u IH|u IH|u IH|u IH|u IH|u IH];
    intros [|v|v|v|v|v|v|v|v|v|v] H; simpl in H;
    try discriminate H; try reflexivity;
    injection H as H; f_equal; apply IH; assumption.
Qed.

Lemma uint_digits_head u c rest :
  uint_digits u = c :: rest -> (48 <= c <= 57)%N.
Proof. destruct u; simpl; intros H; inversion H; lia. Qed.

(** Distinct integers print differently. *)
Lemma ofNumber_inj a b : ofNumber a = ofNumber b -> a = b.
Proof.
  unfold ofNumber. intros H. apply DecimalZ.to_int_inj.
  destruct (Z.to_int a) as [u|u], (Z.to_int b) as [v|v].
  - f_equal. apply uint_digits_inj. assumption.
  - apply uint_digits_head in H. lia.
  - symmetry in H. apply uint_digits_head in H. lia.
  - injection H as H. f_equal. apply uint_digits_inj. assumption.
Qed.

Lemma slotName_inj ty ty' rest rest' :
  slotName ty ++ rest = slotName ty' ++ rest' -> ty = ty'.
Proof. destruct ty, ty'; intros H; try reflexivity; discriminate H. Qed.

(** X2. No two tournaments of different sequence number or slot get the
    same name. *)
Theorem tournament_names_distinct (dayNum dayNum' : Z) (ty ty' : SlotType)
    (Hname : buildTournamentName dayNum ty = buildTournamentName dayNum' ty') :
  dayNum = dayNum' /\ ty = ty'.
Proof.
  unfold buildTournamentName in Hname.
  apply app_inv_head in Hname.
  assert (Hty : ty = ty') by (apply slotName_inj in Hname; assumption).
  subst ty'. repeat apply app_inv_head in Hname.
  apply app_inv_tail in Hname. apply ofNumber_inj in Hname. auto.
Qed.

Lemma tournament_names_distinct_witness :
  buildTournamentName 25 Night = str "LMAO Night '25' Team Battle" /\
  forall n ty, buildTournamentName n ty = str "LMAO Night '25' Team Battle" ->
               n = 25 /\ ty = Night.
Proof.
  split; [reflexivity|]. intros n ty H.
  apply (tournament_names_distinct n 25 ty Night). exact H.
Defined.

(** Digits of a number below one hundred. *)
Lemma ofNumber_below_100 n :
  0 <= n <= 99 ->
  ofNumber n = if n <? 10 then padDigits 1 n else padDigits 2 n.
Proof.
  intros H. assert (Hn : n = Z.of_nat (Z.to_nat n)) by lia.
  assert (Hk : (Z.to_nat n < 100)%nat) by lia.
  rewrite Hn. generalize dependent (Z.to_nat n). intros k _ Hk.
  do 100 (destruct k as [|k]; [reflexivity|]). lia.
Qed.

(** X1. [pad2] gives the two decimal digits of an integer from 0 to 99,
    with a leading zero below ten. *)
Theorem pad2_two_digits (n : Z) (Hrange : 0 <= n <= 99) :
  pad2 n = [Z.to_N (48 + n / 10); Z.to_N (48 + n mod 10)] /\
  pad2 n = padDigits 2 n.
Proof.
  assert (H : pad2 n = padDigits 2 n).
  { unfold pad2. rewrite ofNumber_below_100 by assumption.
    destruct (n <? 10) eqn:C; [|reflexivity].
    apply Z.ltb_lt in C. cbn [padDigits app].
    rewrite (Z.div_small n 10) by lia. reflexivity. }
  split; [|exact H]. rewrite H. cbn [padDigits app].
  rewrite (Z.mod_small (n / 10) 10); [reflexivity|].
  Z.div_mod_to_equations. lia.
Qed.

Lemma pad2_two_digits_witness :
  pad2 7 = str "07" /\ pad2 58 = str "58".
Proof.
  split.
  - rewrite (proj1 (pad2_two_digits 7 ltac:(lia))). reflexivity.
  - rewrite (proj1 (pad2_two_digits 58 ltac:(lia))). reflexivity.
Defined.

(* ================================================================== *)
(** ** Building a date from calendar fields *)

Section DateRoundTrip.

Import JSDate.

(** Case analysis on the comparisons of the goal, innermost first. *)
Ltac split_ltb :=
  repeat match goal with
         | |- context [?a <? ?b] =>
             lazymatch a with
             | context [Z.ltb] => fail
             | _ => lazymatch b with
                    | context [Z.ltb] => fail
                    | _ => destruct (Z.ltb_spec a b)
                    end
             end
         end.

Lemma month_cases m :
  1 <= m <= 12 ->
  m = 1 \/ m = 2 \/ m = 3 \/ m = 4 \/ m = 5 \/ m = 6 \/
  m = 7 \/ m = 8 \/ m = 9 \/ m = 10 \/ m = 11 \/ m = 12.
Proof. lia. Qed.

Lemma MakeDay_in_range y m d :
  1 <= m <= 12 ->
  MakeDay y (m - 1) d = DayFromYear y + monthStart (m - 1) (leapDays y) + d - 1.
Proof.
  intros Hm. unfold MakeDay.
  rewrite Z.div_small, Z.mod_small, Z.add_0_r by lia. reflexivity.
Qed.

(** Evaluate [m - 1] for a literal month [m]. *)
Ltac month_index :=
  repeat match goal with
         | |- context [Z.pos ?p - 1] =>
             let v := eval vm_compute in (Z.pos p - 1) in
             change (Z.pos p - 1) with v
         | H : context [Z.pos ?p - 1] |- _ =>
             let v := eval vm_compute in (Z.pos p - 1) in
             change (Z.pos p - 1) with v in H
         end.

Ltac each_month m Hm :=
  destruct (month_cases m Hm)
    as [M|[M|[M|[M|[M|[M|[M|[M|[M|[M|[M|M]]]]]]]]]]];
  subst m; month_index; cbv beta iota delta [monthStart daysInMonth] in *.

(** A day of month [m], counted from 1 January, falls in that month. *)
Lemma monthOfYearDay_monthStart y m d :
  validDate (y, m, d) ->
  monthOfYearDay (monthStart (m - 1) (leapDays y) + d - 1) (leapDays y) =
  m - 1.
Proof.
  intros [Hm Hd]. unfold monthOfYearDay.
  destruct (leapDays_cases y) as [L|L]; rewrite L in *;
    each_month m Hm; split_ltb; lia.
Qed.

(** The last day of month [m] is before the end of the year. *)
Lemma monthStart_within_year y m d :
  validDate (y, m, d) ->
  0 <= monthStart (m - 1) (leapDays y) + d - 1 < 365 + leapDays y.
Proof.
  intros [Hm Hd].
  destruct (leapDays_cases y) as [L|L]; rewrite L in *;
    each_month m Hm; lia.
Qed.

Lemma daysInMonth_december y : daysInMonth y 12 = 31.
Proof. reflexivity. Qed.

Lemma daysInMonth_bounds y m : 28 <= daysInMonth y m <= 31.
Proof.
  unfold daysInMonth. pose proof (leapDays_cases y).
  destruct m as [|p|p]; try lia.
  do 4 (destruct p as [p|p|]; try lia).
Qed.

(** The day number built from a real calendar date reads back as that
    date. *)
Lemma utcDate_MakeDay y m d t :
  validDate (y, m, d) -> Day t = MakeDay y (m - 1) d -> utcDate t = (y, m, d).
Proof.
  intros Hvalid Ht. pose proof Hvalid as [Hm Hd].
  rewrite MakeDay_in_range in Ht by assumption.
  pose proof (monthOfYearDay_monthStart y m d Hvalid) as Hmonth.
  pose proof (monthStart_within_year y m d Hvalid) as Hwithin.
  assert (Hy : YearFromDay (Day t) = y).
  { apply YearFromDay_unique. rewrite Ht, DayFromYear_succ.
    unfold DaysInYear. lia. }
  unfold utcDate, getUTCFullYear, getUTCMonth, getUTCDate.
  rewrite DateFromTime_monthStart.
  unfold MonthFromTime, InLeapYear, DayWithinYear, YearFromTime.
  rewrite Hy, Ht.
  replace (DayFromYear y + monthStart (m - 1) (leapDays y) + d - 1
           - DayFromYear y)
    with (monthStart (m - 1) (leapDays y) + d - 1) by lia.
  rewrite Hmonth. apply triple_eq; lia.
Qed.

Lemma DayFromYear_100 : DayFromYear 100 = -683003.
Proof. reflexivity. Qed.

Lemma DayFromYear_275760 : DayFromYear 275760 = 99999744.
Proof. reflexivity. Qed.

Lemma monthStart_bounds m leap :
  0 <= leap <= 1 -> 0 <= monthStart m leap <= 335.
Proof.
  intros H. unfold monthStart.
  destruct m as [|p|p]; try lia.
  do 4 (destruct p as [p|p|]; try lia).
Qed.

(** Dates of the years 100 to 275759 are within the Date range. *)
Lemma MakeDay_valid_range y m d h mi :
  100 <= y <= 275759 -> 1 <= m <= 12 -> 1 <= d <= 32 ->
  0 <= h < 24 -> 0 <= mi < 60 ->
  Z.abs (MakeDate (MakeDay y (m - 1) d) (MakeTime h mi 0 0)) <= maxTime.
Proof.
  intros Hy Hm Hd Hh Hmi. rewrite MakeDay_in_range by assumption.
  assert (Hlo : DayFromYear 100 <= DayFromYear y)
    by (apply DayFromYear_mono; lia).
  assert (Hhi : DayFromYear (y + 1) <= DayFromYear 275760)
    by (apply DayFromYear_mono; lia).
  rewrite DayFromYear_100 in Hlo. rewrite DayFromYear_275760 in Hhi.
  rewrite DayFromYear_succ in Hhi. unfold DaysInYear in Hhi.
  pose proof (leapDays_cases y) as HL.
  assert (Hms : 0 <= monthStart (m - 1) (leapDays y) <= 335)
    by (apply monthStart_bounds; lia).
  (* the day stays below the first day of the next year plus a month *)
  assert (Hday : monthStart (m - 1) (leapDays y) + d - 1 <=
                 364 + leapDays y + 32).
  { lia. }
  unfold MakeDate, MakeTime, maxTime, msPerDay, msPerHour, msPerMinute,
    msPerSecond.
  lia.
Qed.

End DateRoundTrip.

Lemma createTournamentDate_full_year y m d h mi y' m' d' :
  100 <= y <= 275759 -> 1 <= m <= 12 -> 1 <= d <= 32 ->
  0 <= h < 24 -> 0 <= mi < 60 ->
  utcDate (JSDate.MakeDate (JSDate.MakeDay y (m - 1) d)
                           (JSDate.MakeTime h mi 0 0)) = (y', m', d') ->
  createTournamentDate y m d h mi =
  Return (JSDate.isoFormat y' m' d' h mi 0 0).
Proof.
  intros Hy Hm Hd Hh Hmi Hdate. unfold createTournamentDate, JSDate.UTC.
  rewrite MakeFullYear_id by lia.
  rewrite TimeClip_ok by (apply MakeDay_valid_range; assumption).
  f_equal. apply toISOString_MakeDate; assumption.
Qed.

(** X3. For a real calendar date of the years 100 to 275759 and a time
    of day, [createTournamentDate] returns exactly that date and time in
    ISO form, seconds and milliseconds zero. *)
Theorem createTournamentDate_real_date (y m d h mi : Z)
    (Hyear : 100 <= y <= 275759)
    (Hdate : validDate (y, m, d))
    (Hhour : 0 <= h < 24) (Hminute : 0 <= mi < 60) :
  createTournamentDate y m d h mi = Return (JSDate.isoFormat y m d h mi 0 0).
Proof.
  pose proof Hdate as [Hm Hd]. pose proof (daysInMonth_bounds y m).
  apply createTournamentDate_full_year; try lia.
  apply utcDate_MakeDay; [assumption|]. apply Day_MakeDate; assumption.
Qed.

Lemma createTournamentDate_real_date_witness :
  validDate (2024, 2, 29) /\
  createTournamentDate 2024 2 29 18 58 = Return (str "2024-02-29T18:58:00.000Z").
Proof.
  assert (Hdate : validDate (2024, 2, 29)) by (cbv -[Z.le]; lia).
  split; [exact Hdate|].
  rewrite (createTournamentDate_real_date 2024 2 29 18 58
             ltac:(lia) Hdate ltac:(lia) ltac:(lia)).
  reflexivity.
Defined.



Lemma DayFromYear_275761 : JSDate.DayFromYear 275761 = 100000110.
Proof. reflexivity. Qed.

(** X5. Beyond the range of Date, from the year 275761 on, no string is
    produced: [toISOString] throws a RangeError. *)
Theorem createTournamentDate_out_of_range (y m d h mi : Z)
    (Hyear : 275761 <= y)
    (Hmonth : 1 <= m <= 12) (Hday : 1 <= d)
    (Hhour : 0 <= h) (Hminute : 0 <= mi) :
  createTournamentDate y m d h mi =
  Throw (RangeError (str "Invalid time value")).
Proof.
  unfold createTournamentDate, JSDate.UTC.
  rewrite MakeFullYear_id by lia. rewrite MakeDay_in_range by assumption.
  assert (Hlo : JSDate.DayFromYear 275761 <= JSDate.DayFromYear y)
    by (apply DayFromYear_mono; lia).
  rewrite DayFromYear_275761 in Hlo.
  assert (Hms : 0 <= JSDate.monthStart (m - 1) (JSDate.leapDays y))
    by (apply monthStart_bounds; destruct (leapDays_cases y); lia).
  unfold JSDate.TimeClip.
  destruct (Z.leb_spec
              (Z.abs (JSDate.MakeDate
                        (JSDate.DayFromYear y +
                         JSDate.monthStart (m - 1) (JSDate.leapDays y) + d - 1)
                        (JSDate.MakeTime h mi 0 0)))
              JSDate.maxTime) as [Hle|_]; [|reflexivity].
  exfalso. revert Hle.
  unfold JSDate.MakeDate, JSDate.MakeTime, JSDate.maxTime, JSDate.msPerDay,
    JSDate.msPerHour, JSDate.msPerMinute, JSDate.msPerSecond.
  lia.
Qed.

Lemma createTournamentDate_out_of_range_witness :
  createTournamentDate 275761 1 1 6 58 =
  Throw (RangeError (str "Invalid time value")).
Proof.
  apply (createTournamentDate_out_of_range 275761 1 1 6 58); lia.
Defined.

(** X6. A year from 0 to 99 is read as 1900 plus that year. *)
Theorem createTournamentDate_two_digit_year (yy m d h mi : Z)
    (Hyear : 0 <= yy <= 99)
    (Hdate : validDate (1900 + yy, m, d))
    (Hhour : 0 <= h < 24) (Hminute : 0 <= mi < 60) :
  createTournamentDate yy m d h mi =
  Return (JSDate.isoFormat (1900 + yy) m d h mi 0 0).
Proof.
  rewrite <- (createTournamentDate_real_date (1900 + yy) m d h mi)
    by (assumption || lia).
  unfold createTournamentDate, JSDate.UTC, JSDate.MakeFullYear.
  destruct (Z.leb_spec 0 yy), (Z.leb_spec yy 99); try lia.
  destruct (Z.leb_spec 0 (1900 + yy)), (Z.leb_spec (1900 + yy) 99); try lia.
  reflexivity.
Qed.

Lemma createTournamentDate_two_digit_year_witness :
  validDate (1900 + 24, 2, 29) /\
  createTournamentDate 24 2 29 6 58 = Return (str "1924-02-29T06:58:00.000Z").
Proof.
  assert (Hdate : validDate (1900 + 24, 2, 29)) by (cbv -[Z.le]; lia).
  split; [exact Hdate|].
  rewrite (createTournamentDate_two_digit_year 24 2 29 6 58
             ltac:(lia) Hdate ltac:(lia) ltac:(lia)).
  reflexivity.
Defined.

(* ================================================================== *)
(** ** Live calls of the submitter *)

Section LiveCalls.

Variable E : Env.

Lemma isLive_true params :
  isLive params = true ->
  tokenRejected (p_token params) = false /\ p_dryRun params <> Some true.
Proof.
  unfold isLive. rewrite andb_true_iff, negb_true_iff. intros [Ht Hd].
  split; [assumption|]. intros H. rewrite H in Hd. discriminate.
Qed.

Lemma isLive_false params :
  isLive params = false ->
  tokenRejected (p_token params) = true \/ p_dryRun params = Some true.
Proof.
  unfold isLive. rewrite andb_false_iff, negb_false_iff. intros [Ht|Hd].
  - left. assumption.
  - right. destruct (p_dryRun params) as [[|]|]; congruence.
Qed.

(** A live call is the [try] block around one [fetch]. *)
Lemma createTeamBattle_live params w :
  isLive params = true ->
  createTeamBattle E params w =
  tryCatch
    (res <- fetch E (arenaRequest params) ;;
     if negb (res_ok res) then
       errorText <- lift (res_text res) ;;
       consoleError [str "Tournament creation failed:";
                     ofNumber (res_status res); errorText] ;;
       ret (failure (ofNumber (res_status res) ++ str ": " ++ errorText))
     else
       id <- lift (res_json res) ;;
       let u :=
         match id with
         | Some i => p_server params ++ str "/tournament/" ++ i
         | None =>
             match res_location res with
             | Some (c :: l) => c :: l
             | _ => str "unknown"
             end
         end in
       consoleLog [str "Created tournament:"; u] ;;
       ret (success u))
    (fun e =>
       consoleError [str "Network error:"; exnString e] ;;
       ret (failure (exnString e))) w.
Proof.
  intros Hlive. apply isLive_true in Hlive. destruct Hlive as [Ht Hd].
  unfold createTeamBattle. rewrite Ht.
  destruct (p_dryRun params) as [[|]|]; congruence.
Qed.

Ltac run_live Hlive :=
  rewrite (createTeamBattle_live _ _ Hlive);
  unfold tryCatch, bind, fetch, lift, consoleLog, consoleError, ret;
  match goal with
  | |- context [trace ?w ++ [Fetch ?r]] => fold (after w [Fetch r])
  end.

(** The effects of a call: console lines and at most one request. *)
Lemma createTeamBattle_events params w :
  exists result evs,
    createTeamBattle E params w = (Return result, after w evs) /\
    quiet evs /\ sleepsOf evs = [] /\ spaced true evs = true /\
    fetchesOf evs = if isLive params then [arenaRequest params] else [].
Proof.
  destruct (isLive params) eqn:Hlive.
  - run_live Hlive.
    destruct (network E _ _) as [e|res];
      [|destruct (res_ok res); cbn [negb];
        [destruct (res_json res) | destruct (res_text res)]];
      rewrite ?emit_run, ?after_after;
      eexists _, _; (split; [reflexivity|]); repeat split.
  - apply isLive_false in Hlive. destruct Hlive as [Ht|Hd].
    + exists (failure invalidTokenMessage), [].
      rewrite after_nil, createTeamBattle_rejected by assumption.
      repeat split.
    + destruct (tokenRejected (p_token params)) eqn:Ht.
      * exists (failure invalidTokenMessage), [].
        rewrite after_nil, createTeamBattle_rejected by assumption.
        repeat split.
      * eexists _, _. rewrite createTeamBattle_dryRun by assumption.
        repeat split.
Qed.

End LiveCalls.

(** X7. A live call answered with a non-success HTTP status returns a
    failure whose message is the status code, a colon and the response
    text, after exactly one request. *)
Theorem http_error_is_reported (E : Env) (params : Params) (w : World)
    (res : Response) (text : jsstring)
    (Hlive : isLive params = true)
    (Hanswer : network E (List.length (fetchesOf (trace w)))
                       (arenaRequest params) = Responded res)
    (Hstatus : res_ok res = false)
    (Htext : res_text res = Return text) :
  createTeamBattle E params w =
  (Return (failure (ofNumber (res_status res) ++ str ": " ++ text)),
   after w [Fetch (arenaRequest params);
            ConsoleError (join (str " ") [str "Tournament creation failed:";
                                          ofNumber (res_status res); text])]).
Proof.
  rewrite (createTeamBattle_live _ _ _ Hlive).
  unfold tryCatch, bind, fetch, lift, consoleError, ret.
  rewrite Hanswer, Hstatus. cbn [negb]. rewrite Htext, emit_run.
  fold (after w [Fetch (arenaRequest params)]). rewrite after_after.
  reflexivity.
Qed.

Lemma http_error_is_reported_witness :
  fst (createTeamBattle (liveEnv (Responded rateLimited))
         (sampleParams (str "lip_4bKx9") (Some false)) (initWorld None)) =
  Return (failure (str "429: Too many requests")).
Proof.
  rewrite (http_error_is_reported (liveEnv (Responded rateLimited))
             (sampleParams (str "lip_4bKx9") (Some false)) (initWorld None)
             rateLimited (str "Too many requests")
             eq_refl eq_refl eq_refl eq_refl).
  reflexivity.
Defined.

(** X8. Whatever is thrown inside a live call, by the request itself or
    while reading the response body as text or as JSON, is caught: the
    call returns a failure carrying the string form of the error, after
    exactly one request. *)
Theorem thrown_errors_become_failures (E : Env) (params : Params) (w : World)
    (e : Exn)
    (Hlive : isLive params = true)
    (Hthrown :
       let answer := network E (List.length (fetchesOf (trace w)))
                             (arenaRequest params) in
       answer = Rejected e \/
       exists res, answer = Responded res /\
                   (res_ok res = false /\ res_text res = Throw e \/
                    res_ok res = true /\ res_json res = Throw e)) :
  createTeamBattle E params w =
  (Return (failure (exnString e)),
   after w [Fetch (arenaRequest params);
            ConsoleError (join (str " ") [str "Network error:"; exnString e])]).
Proof.
  cbv zeta in Hthrown.
  rewrite (createTeamBattle_live _ _ _ Hlive).
  unfold tryCatch, bind, fetch, lift, consoleError, ret.
  fold (after w [Fetch (arenaRequest params)]).
  destruct Hthrown as [Hrej | (res & Hres & [[Hok Hthrow] | [Hok Hthrow]])].
  - rewrite Hrej, emit_run, after_after. reflexivity.
  - rewrite Hres, Hok. cbn [negb]. rewrite Hthrow, emit_run, after_after.
    reflexivity.
  - rewrite Hres, Hok. cbn [negb]. rewrite Hthrow, emit_run, after_after.
    reflexivity.
Qed.

Lemma thrown_errors_become_failures_witness :
  fst (createTeamBattle (liveEnv (Responded brokenBody))
         (sampleParams (str "lip_4bKx9") None) (initWorld None)) =
  Return (failure (str "Error: Unexpected token < in JSON")).
Proof.
  rewrite (thrown_errors_become_failures (liveEnv (Responded brokenBody))
             (sampleParams (str "lip_4bKx9") None) (initWorld None)
             (Error (str "Unexpected token < in JSON")) eq_refl).
  - reflexivity.
  - right. exists brokenBody. split; [reflexivity|]. right.
    split; reflexivity.
Defined.

(** X9. A live call answered with a success status and a JSON body
    succeeds; its URL is [{server}/tournament/{id}] when the body has an
    id, else the [Location] header when that is present and not empty,
    else the word [unknown]. *)
Theorem created_url_derivation (E : Env) (params : Params) (w : World)
    (res : Response) (id : option jsstring)
    (Hlive : isLive params = true)
    (Hanswer : network E (List.length (fetchesOf (trace w)))
                       (arenaRequest params) = Responded res)
    (Hstatus : res_ok res = true)
    (Hjson : res_json res = Return id) :
  exists u,
    createTeamBattle E params w =
    (Return (success u),
     after w [Fetch (arenaRequest params);
              ConsoleLog (join (str " ") [str "Created tournament:"; u])]) /\
    (forall i, id = Some i -> u = p_server params ++ str "/tournament/" ++ i) /\
    (forall l, id = None -> res_location res = Some l -> l <> [] -> u = l) /\
    (id = None -> res_location res = None \/ res_location res = Some [] ->
     u = str "unknown").
Proof.
  eexists. split.
  - rewrite (createTeamBattle_live _ _ _ Hlive).
    unfold tryCatch, bind, fetch, lift, consoleLog, ret.
    rewrite Hanswer, Hstatus. cbn [negb]. rewrite Hjson, emit_run.
    fold (after w [Fetch (arenaRequest params)]). rewrite after_after.
    reflexivity.
  - split; [|split].
    + intros i ->. reflexivity.
    + intros l -> Hl Hne. rewrite Hl. destruct l; [congruence | reflexivity].
    + intros -> [Hl|Hl]; rewrite Hl; reflexivity.
Qed.

Lemma created_url_derivation_witness :
  fst (createTeamBattle (liveEnv (Responded redirected))
         (sampleParams (str "lip_4bKx9") (Some false)) (initWorld None)) =
  Return (success (str "/tournament/Qw3rTy12")).
Proof.
  destruct (created_url_derivation (liveEnv (Responded redirected))
              (sampleParams (str "lip_4bKx9") (Some false)) (initWorld None)
              redirected None eq_refl eq_refl eq_refl eq_refl)
    as (u & Hrun & _ & Hloc & _).
  rewrite Hrun. cbn [fst].
  rewrite (Hloc (str "/tournament/Qw3rTy12") eq_refl eq_refl); [reflexivity|].
  discriminate.
Defined.

(** X10. A call never throws and never writes the state file; it sends
    exactly one request when the token passes the check and [dryRun] is
    not set, and none otherwise. *)
Theorem createTeamBattle_one_attempt (E : Env) (params : Params) (w : World) :
  exists result w',
    createTeamBattle E params w = (Return result, w') /\
    stateFile w' = stateFile w /\
    writesOf (trace w') = writesOf (trace w) /\
    fetchesOf (trace w') =
      fetchesOf (trace w) ++
      (if isLive params then [arenaRequest params] else []).
Proof.
  destruct (createTeamBattle_events E params w)
    as (result & evs & Hrun & (Hw & _) & _ & _ & Hf).
  exists result, (after w evs). split; [exact Hrun|].
  cbn [after stateFile trace]. unfold writesOf, fetchesOf in *.
  rewrite !flat_map_app, Hw, Hf, app_nil_r. repeat split.
Qed.

Lemma teams_entries_kept inv :
  filter (fun kv : jsstring * jsstring => JSString.eqb (fst kv) (str "teams[]"))
         (map (fun t => (str "teams[]", t)) inv) =
  map (fun t => (str "teams[]", t)) inv.
Proof.
  induction inv as [|t inv IH]; [reflexivity|].
  cbn [map filter fst]. rewrite eqb_refl, IH. reflexivity.
Qed.

Lemma teams_entries_dropped inv :
  filter (fun kv : jsstring * jsstring =>
            negb (JSString.eqb (fst kv) (str "teams[]")))
         (map (fun t => (str "teams[]", t)) inv) = [].
Proof.
  induction inv as [|t inv IH]; [reflexivity|].
  cbn [map filter fst]. rewrite eqb_refl, IH. reflexivity.
Qed.

Lemma formBody_fields params :
  teamsField (formBody params) =
    invitedTeams (p_teams params) (p_hostTeamId params) /\
  scalarFields (formBody params) =
    [ (str "name", p_name params);
      (str "description", p_description params);
      (str "clockTime", ofNumber (p_clockTime params));
      (str "clockIncrement", ofNumber (p_clockIncrement params));
      (str "minutes", ofNumber (p_minutes params));
      (str "rated", if p_rated params then str "true" else str "false");
      (str "variant", p_variant params);
      (str "startDate", p_startDateISO params);
      (str "hostTeamId", p_hostTeamId params) ].
Proof.
  unfold formBody, teamsField, scalarFields.
  rewrite !filter_app, teams_entries_kept, teams_entries_dropped.
  cbn [filter fst app map snd negb].
  change (JSString.eqb (str "name") (str "teams[]")) with false.
  change (JSString.eqb (str "description") (str "teams[]")) with false.
  change (JSString.eqb (str "clockTime") (str "teams[]")) with false.
  change (JSString.eqb (str "clockIncrement") (str "teams[]")) with false.
  change (JSString.eqb (str "minutes") (str "teams[]")) with false.
  change (JSString.eqb (str "rated") (str "teams[]")) with false.
  change (JSString.eqb (str "variant") (str "teams[]")) with false.
  change (JSString.eqb (str "startDate") (str "teams[]")) with false.
  change (JSString.eqb (str "hostTeamId") (str "teams[]")) with false.
  cbn [negb app map fst snd]. rewrite map_map. cbn [snd]. rewrite map_id.
  split; reflexivity.
Qed.

(** X11. The form body of a request carries the nine scalar fields once
    each, in a fixed order, followed by one [teams[]] entry per invited
    team: the configured teams without the host team, which is never
    invited to its own tournament. *)
Theorem request_body_fields (params : Params) :
  let body := req_body (arenaRequest params) in
  teamsField body = invitedTeams (p_teams params) (p_hostTeamId params) /\
  ~ In (p_hostTeamId params) (teamsField body) /\
  map fst (scalarFields body) =
    [str "name"; str "description"; str "clockTime"; str "clockIncrement";
     str "minutes"; str "rated"; str "variant"; str "startDate";
     str "hostTeamId"] /\
  body = scalarFields body ++
         map (fun t => (str "teams[]", t)) (teamsField body).
Proof.
  cbv zeta. cbn [arenaRequest req_body].
  destruct (formBody_fields params) as [-> ->].
  repeat split. rewrite invited_iff. tauto.
Qed.

(* ================================================================== *)
(** ** Requests and waits of a run *)

Section RunTrace.

Variable E : Env.

Lemma sleepsOf_app a b : sleepsOf (a ++ b) = sleepsOf a ++ sleepsOf b.
Proof. apply flat_map_app. Qed.

Lemma fetchesOf_app a b : fetchesOf (a ++ b) = fetchesOf a ++ fetchesOf b.
Proof. apply flat_map_app. Qed.

Lemma spaced_app a : forall b c,
  spaced b (a ++ c) = spaced b a && spaced (armedAfter b a) c.
Proof.
  induction a as [|e a IH]; intros b c; [reflexivity|].
  destruct e; cbn [app spaced armedAfter]; rewrite ?IH, ?andb_assoc;
    reflexivity.
Qed.

Lemma armedAfter_app a : forall b c,
  armedAfter b (a ++ c) = armedAfter (armedAfter b a) c.
Proof.
  induction a as [|e a IH]; intros b c; [reflexivity|].
  destruct e; cbn [app armedAfter]; rewrite ?IH; reflexivity.
Qed.

Lemma offline_nil : offline [].
Proof. split; reflexivity. Qed.

Lemma offline_app a b : offline a -> offline b -> offline (a ++ b).
Proof.
  intros [Hf Hs] [Hf' Hs']. unfold offline.
  rewrite fetchesOf_app, sleepsOf_app, Hf, Hs, Hf', Hs'. split; reflexivity.
Qed.

(** Console lines and file writes leave the rate-limit state alone. *)
Lemma offline_spaced evs : forall b,
  offline evs -> spaced b evs = true /\ armedAfter b evs = b.
Proof.
  induction evs as [|e evs IH]; intros b [Hf Hs]; [split; reflexivity|].
  destruct e; cbn in Hf, Hs; try discriminate;
    cbn [spaced armedAfter]; apply IH; split; assumption.
Qed.

Lemma after_inj w evs evs' : after w evs = after w evs' -> evs = evs'.
Proof.
  unfold after. intros H. injection H as H. apply app_inv_head in H.
  assumption.
Qed.

Lemma isLive_paramsFor oauthToken t :
  isLive (paramsFor E oauthToken t) = runIsLive E oauthToken.
Proof. reflexivity. Qed.

(** The requests, waits and results of the submission loop from index
    [i] on. *)
Lemma submitLoop_events oauthToken ts : forall i tally w b,
  (i = 0%nat -> b = true) ->
  exists tally' evs,
    submitLoop E oauthToken i ts tally w = (Return tally', after w evs) /\
    spaced b evs = true /\
    sleepsOf evs =
      repeat 10000 (List.length ts - (if (0 <? i)%nat then 0 else 1)) /\
    fetchesOf evs =
      (if runIsLive E oauthToken
       then map (fun t => arenaRequest (paramsFor E oauthToken t)) ts
       else []) /\
    Forall2 (fun t r =>
               exists w0,
                 fst (createTeamBattle E (paramsFor E oauthToken t) w0) =
                 Return r)
            ts (resultsOf evs).
Proof.
  induction ts as [|t ts IH]; intros i tally w b Hb.
  - exists tally, []. rewrite after_nil. cbn [submitLoop]. unfold ret.
    repeat split; try constructor. destruct (runIsLive E oauthToken); reflexivity.
  - cbn [submitLoop].
    erewrite bind_Return by apply consoleLog_run.
    erewrite bind_Return by apply consoleLog_run.
    erewrite bind_Return by apply consoleLog_run.
    rewrite !after_after.
    match goal with |- context [after w ?l] => set (pre := l) end.
    assert (Hpre : offline pre) by (split; reflexivity).
    assert (Hpre_r : resultsOf pre = []) by reflexivity.
    clearbody pre.
    assert (Hwait : exists wait,
      (if (0 <? i)%nat
       then consoleLog [str "Waiting 10 seconds to avoid rate limits..."] ;;
            sleep 10000
       else ret tt) (after w pre) = (Return tt, after (after w pre) wait) /\
      spaced b wait = true /\ armedAfter b wait = true /\
      fetchesOf wait = [] /\ resultsOf wait = [] /\
      sleepsOf wait = if (0 <? i)%nat then [10000] else []).
    { destruct (0 <? i)%nat eqn:Hi.
      - eexists. split; [unfold bind, sleep; rewrite consoleLog_run, emit_run,
          after_after; reflexivity|].
        cbn [app spaced armedAfter]. change (10000 <=? 10000) with true.
        rewrite orb_true_r. repeat split.
      - exists []. rewrite after_nil. rewrite Hb; [repeat split|].
        apply Nat.ltb_ge in Hi. lia. }
    destruct Hwait as (wait & Hwait & Hsw & Haw & Hfw & Hrw & Hslw).
    erewrite bind_Return by apply Hwait.
    destruct (createTeamBattle_events E (paramsFor E oauthToken t)
                (after (after w pre) wait))
      as (r & evsC & Hc & (_ & HrC & _) & HsC & HspC & HfC).
    rewrite isLive_paramsFor in HfC.
    erewrite bind_Return by apply Hc.
    erewrite bind_Return by apply emit_run.
    assert (Hcount : exists tally1 evs3,
      (if ok r
       then consoleLog [slotName (type t) ++ str " battle created successfully"] ;;
            ret {| successCount := successCount tally + 1;
                   failureCount := failureCount tally |}
       else consoleError [str "Failed to create " ++ slotName (type t) ++
                          str " battle: " ++
                          match error r with
                          | Some m => m
                          | None => str "undefined"
                          end] ;;
            ret {| successCount := successCount tally;
                   failureCount := failureCount tally + 1 |})
        (after (after (after (after w pre) wait) evsC) [Submitted t r]) =
      (Return tally1,
       after (after (after (after (after w pre) wait) evsC) [Submitted t r])
             evs3) /\
      offline evs3 /\ resultsOf evs3 = []).
    { destruct (ok r).
      - eexists _, _. split; [unfold bind, ret; rewrite consoleLog_run;
          reflexivity|]. repeat split.
      - eexists _, _. split; [unfold bind, ret; rewrite consoleError_run;
          reflexivity|]. repeat split. }
    destruct Hcount as (tally1 & evs3 & Hcount & Hoff3 & Hr3).
    erewrite bind_Return by apply Hcount.
    destruct (IH (S i) tally1
                 (after (after (after (after (after w pre) wait) evsC)
                               [Submitted t r]) evs3)
                 (armedAfter true evsC))
      as (tally' & evs4 & Hloop & Hsp4 & Hsl4 & Hf4 & Hr4); [discriminate|].
    rewrite Hloop, !after_after.
    exists tally'. eexists. split; [reflexivity|].
    destruct Hpre as [Hfp Hslp]. destruct Hoff3 as [Hf3 Hsl3].
    destruct (offline_spaced pre b (conj Hfp Hslp)) as [Hsp_pre Ha_pre].
    split; [|split; [|split]].
    + rewrite !spaced_app, ?armedAfter_app, Hsp_pre, Ha_pre, Hsw, Haw, HspC.
      cbn [spaced armedAfter andb].
      destruct (offline_spaced evs3 (armedAfter true evsC) (conj Hf3 Hsl3))
        as [-> ->].
      rewrite Hsp4. reflexivity.
    + rewrite !sleepsOf_app, Hslp, Hslw, HsC, Hsl3, Hsl4.
      cbn [sleepsOf flat_map app List.length].
      destruct (0 <? i)%nat; cbn [app Nat.ltb Nat.leb];
        rewrite ?Nat.sub_0_r; [reflexivity|].
      destruct ts; reflexivity.
    + rewrite !fetchesOf_app, Hfp, Hfw, HfC, Hf3, Hf4.
      cbn [fetchesOf flat_map app].
      destruct (runIsLive E oauthToken); reflexivity.
    + rewrite !resultsOf_app, Hpre_r, Hrw, HrC, Hr3.
      cbn [resultsOf flat_map app]. constructor; [|assumption].
      exists (after (after w pre) wait). rewrite Hc. reflexivity.
Qed.

End RunTrace.

Section RunRequests.

Variable E : Env.

Lemma loadState_offline w :
  exists evs,
    tryCatch (readJSON stateFilePath)
      (fun _ =>
         consoleWarn [str "Could not read " ++ stateFilePath ++
                      str ", starting from Day 24"] ;;
         ret {| lastTournamentDayNum := 24 |}) w =
    (Return (loadedState (stateFile w)), after w evs) /\
    offline evs /\ resultsOf evs = [].
Proof.
  unfold tryCatch, readJSON. rewrite eqb_refl.
  destruct (stateFile w) as [st|]; cbn [loadedState].
  - exists []. rewrite after_nil. repeat split.
  - eexists. unfold bind, consoleWarn, ret. rewrite emit_run.
    split; [reflexivity | repeat split].
Qed.

(** The trace of a run: console lines, then the events of the submission
    loop, then console lines and at most the state write. *)
Lemma main_trace f :
  let tr := trace (snd (main E (initWorld f))) in
  (offline tr /\ resultsOf tr = []) \/
  exists oauthToken ts evs0 evsL evsT tally,
    OAUTH_TOKEN E = Some oauthToken /\ oauthToken <> [] /\
    generateTournaments E (loadedState f) = Return ts /\
    submitLoop E oauthToken 0 ts {| successCount := 0; failureCount := 0 |}
               (after (initWorld f) evs0) =
      (Return tally, after (after (initWorld f) evs0) evsL) /\
    tr = evs0 ++ evsL ++ evsT /\
    offline evs0 /\ offline evsT /\ resultsOf evs0 = [] /\ resultsOf evsT = [].
Proof.
  cbv zeta. destruct (main E (initWorld f)) as [status w'] eqn:Hmain.
  cbn [snd]. unfold main, mainBody in Hmain.
  destruct (OAUTH_TOKEN E) as [[|c rest]|] eqn:Htok.
  1, 3: (unfold throw in Hmain; rewrite consoleError_run in Hmain;
         injection Hmain as <- <-; left; repeat split).
  set (oauthToken := c :: rest) in *.
  destruct (loadState_offline (initWorld f))
    as (evs0 & Hload & Hoff0 & Hres0).
  cbn [initWorld stateFile] in Hload.
  erewrite bind_Return in Hmain by apply Hload.
  destruct (generateTournaments E (loadedState f)) as [ts|e] eqn:Hgen.
  2: { erewrite bind_Throw in Hmain by reflexivity.
       rewrite consoleError_run, after_after in Hmain.
       injection Hmain as <- <-. left. cbn [after trace initWorld app].
       split; [apply offline_app; [assumption | split; reflexivity]|].
       rewrite resultsOf_app, Hres0. reflexivity. }
  erewrite bind_Return in Hmain by reflexivity.
  erewrite bind_Return in Hmain by apply consoleLog_run.
  erewrite bind_Return in Hmain by apply consoleLog_run.
  rewrite !after_after in Hmain.
  set (evs1 := evs0 ++ _) in Hmain.
  assert (Hoff1 : offline evs1)
    by (apply offline_app; [assumption | split; reflexivity]).
  assert (Hres1 : resultsOf evs1 = [])
    by (unfold evs1; rewrite resultsOf_app, Hres0; reflexivity).
  clearbody evs1.
  destruct (submitLoop_run E oauthToken ts 0%nat
              {| successCount := 0; failureCount := 0 |}
              (after (initWorld f) evs1))
    as (rs & evsL & Hloop & _).
  right. exists oauthToken, ts, evs1, evsL.
  erewrite bind_Return in Hmain by apply Hloop.
  cbn [successCount failureCount] in Hmain.
  rewrite !Z.add_0_l, after_after in Hmain.
  assert (Htail : exists evsT,
    trace w' = evs1 ++ evsL ++ evsT /\ offline evsT /\ resultsOf evsT = []).
  { destruct (0 <? countOk rs).
    - destruct (MathMax (map dayNum ts)) as [maxDayNum|].
      + unfold writeFileSync in Hmain.
        destruct (writeFailure E) as [e|].
        * erewrite bind_Throw in Hmain;
            [|unfold bind; cbn [trace stateFile after]; reflexivity].
          rewrite consoleError_run in Hmain. injection Hmain as <- <-.
          cbn [after trace stateFile initWorld]. rewrite <- ?app_assoc.
          eexists. split; [reflexivity|]. repeat split.
        * unfold bind at 1 in Hmain. unfold bind at 1 in Hmain.
          cbn [trace stateFile after initWorld] in Hmain.
          repeat (unfold bind at 1 in Hmain; rewrite consoleLog_run in Hmain).
          unfold ret in Hmain.
          destruct (0 <? countFailed rs); injection Hmain as <- <-;
            cbn [after trace stateFile initWorld]; rewrite <- ?app_assoc;
            (eexists; split; [reflexivity|]); repeat split.
      + unfold bind at 1 in Hmain. unfold ret at 1 in Hmain.
        repeat (unfold bind at 1 in Hmain; rewrite consoleLog_run in Hmain).
        unfold ret in Hmain.
        destruct (0 <? countFailed rs); injection Hmain as <- <-;
          cbn [after trace stateFile initWorld]; rewrite <- ?app_assoc;
          (eexists; split; [reflexivity|]); repeat split.
    - unfold bind at 1 in Hmain. unfold ret at 1 in Hmain.
      repeat (unfold bind at 1 in Hmain; rewrite consoleLog_run in Hmain).
      unfold ret in Hmain.
      destruct (0 <? countFailed rs); injection Hmain as <- <-;
        cbn [after trace stateFile initWorld]; rewrite <- ?app_assoc;
        (eexists; split; [reflexivity|]); repeat split. }
  destruct Htail as (evsT & Hw' & HoffT & HresT).
  exists evsT. eexists.
  split; [reflexivity|]. split; [discriminate|]. split; [reflexivity|].
  split; [exact Hloop|].
  split; [exact Hw'|]. split; [exact Hoff1|]. split; [exact HoffT|].
  split; assumption.
Qed.

End RunRequests.

Section RunProperties.

Variable E : Env.

(** What a run that reaches its submissions sends and waits for. *)
Lemma main_events f :
  let tr := trace (snd (main E (initWorld f))) in
  (offline tr /\ resultsOf tr = []) \/
  exists oauthToken ts,
    OAUTH_TOKEN E = Some oauthToken /\ oauthToken <> [] /\
    generateTournaments E (loadedState f) = Return ts /\
    spaced true tr = true /\
    sleepsOf tr = repeat 10000 (List.length ts - 1) /\
    fetchesOf tr =
      (if runIsLive E oauthToken
       then map (fun t => arenaRequest (paramsFor E oauthToken t)) ts
       else []) /\
    Forall2 (fun t r =>
               exists w0,
                 fst (createTeamBattle E (paramsFor E oauthToken t) w0) =
                 Return r)
            ts (resultsOf tr).
Proof.
  cbv zeta. destruct (main_trace E f) as [Hoff | Hrun]; [left; exact Hoff|].
  destruct Hrun as (tok & ts & evs0 & evsL & evsT & tally & Htok & Hne & Hgen &
                    Hloop & Htr & [Hf0 Hs0] & [HfT HsT] & Hr0 & HrT).
  right. exists tok, ts. repeat (split; [assumption|]).
  destruct (submitLoop_events E tok ts 0%nat
              {| successCount := 0; failureCount := 0 |}
              (after (initWorld f) evs0) true (fun _ => eq_refl))
    as (tally' & evs & Hloop' & Hsp & Hsl & Hfe & Hres).
  rewrite Hloop in Hloop'. injection Hloop' as _ Hevs.
  apply app_inv_head in Hevs. subst evs.
  rewrite Htr. split; [|split; [|split]].
  - rewrite !spaced_app.
    destruct (offline_spaced evs0 true (conj Hf0 Hs0)) as [-> ->].
    rewrite Hsp.
    destruct (offline_spaced evsT (armedAfter true evsL) (conj HfT HsT))
      as [-> _].
    reflexivity.
  - rewrite !sleepsOf_app, Hs0, HsT, Hsl, app_nil_r. reflexivity.
  - rewrite !fetchesOf_app, Hf0, HfT, Hfe, app_nil_r. reflexivity.
  - rewrite !resultsOf_app, Hr0, HrT, app_nil_r. exact Hres.
Qed.


End RunProperties.

(** X12. Without a token, or with an empty one, the run is over at once:
    the only effect is the fatal-error line, the state file is neither
    read nor written, nothing is submitted, and the exit status is 1. *)
Theorem missing_token_aborts_first (E : Env) (w : World)
    (Hmissing : OAUTH_TOKEN E = None \/ OAUTH_TOKEN E = Some []) :
  main E w =
  (1, after w [fatalError
                 (Error (str "OAUTH_TOKEN environment variable is required"))]).
Proof.
  unfold main, mainBody.
  destruct Hmissing as [-> | ->]; reflexivity.
Qed.

Lemma missing_token_aborts_first_witness :
  let run := main noTokenEnv (initWorld None) in
  fst run = 1 /\ stateFile (snd run) = None /\ List.length (trace (snd run)) = 1%nat.
Proof.
  cbv zeta.
  rewrite (missing_token_aborts_first noTokenEnv (initWorld None)
             (or_introl eq_refl)).
  repeat split.
Defined.

(** X13. In every run, each request but the first goes out only after a
    wait of ten seconds since the request before it. *)
Theorem requests_are_spaced (E : Env) (file : option TournamentState) :
  spaced true (trace (snd (main E (initWorld file)))) = true.
Proof.
  destruct (main_events E file) as [[Hoff _] | Hrun].
  - apply offline_spaced. exact Hoff.
  - destruct Hrun as (tok & ts & _ & _ & _ & Hsp & _). exact Hsp.
Qed.






Lemma dryRun_config_iff E :
  dryRun (config E) = Some true <->
  DRY_RUN E = Some (str "1") \/ DRY_RUN E = Some (str "true").
Proof.
  unfold config. cbn [dryRun]. destruct (DRY_RUN E) as [v|].
  - split.
    + intros H. injection H as H. apply orb_true_iff in H.
      destruct H as [H|H]; apply eqb_eq in H; subst v; auto.
    + intros [H|H]; injection H as ->; reflexivity.
  - split; [discriminate | intros [H|H]; discriminate].
Qed.

(** X21. Dry-run mode is on exactly when [DRY_RUN] is the string [1] or
    the string [true]; any other value, and an unset variable, mean a
    live run. *)
Theorem dry_run_flag_values (E : Env) :
  (dryRun (config E) = Some true <->
   DRY_RUN E = Some (str "1") \/ DRY_RUN E = Some (str "true")) /\
  (dryRun (config E) = Some true \/ dryRun (config E) = Some false).
Proof.
  split; [apply dryRun_config_iff|].
  unfold config. cbn [dryRun].
  destruct (DRY_RUN E) as [v|]; [|right; reflexivity].
  destruct (JSString.eqb v (str "1") || JSString.eqb v (str "true")); auto.
Qed.

(** Upper-case [TRUE] does not switch dry-run mode on. *)
Example dry_run_flag_is_case_sensitive :
  dryRun (config {| OAUTH_TOKEN := None; DRY_RUN := Some (str "TRUE");
                    now := 0; localTZA := fun _ _ => 0; network := networkDown;
                    writeFailure := None |}) = Some false.
Proof. reflexivity. Qed.





(** X19. A run whose state write does not throw never lowers a
    whole-number counter between -2^53 and 2^53 - 2: the state file it
    leaves is the one it found or holds the old counter plus two. *)
Theorem counter_never_decreases (E : Env) (file : option TournamentState)
    (Hwrite : writeFailure E = None)
    (Hsafe : safeCounter (lastTournamentDayNum (loadedState file))) :
  let after_run := stateFile (snd (main E (initWorld file))) in
  (after_run = file \/
   after_run = Some {| lastTournamentDayNum :=
                         lastTournamentDayNum (loadedState file) + 2 |}) /\
  lastTournamentDayNum (loadedState file) <=
  lastTournamentDayNum (loadedState after_run).
Proof.
  cbv zeta.
  destruct (main_shape E file); rewrite Hfile;
    try (split; [left; reflexivity | lia]).
  destruct (attempted_batch E file ts Hbatch Hsafe) as (_ & Hmax').
  assert (maxDayNum = lastTournamentDayNum (loadedState file) + 2)
    by congruence. subst maxDayNum.
  split; [right; reflexivity|]. cbn [loadedState lastTournamentDayNum]. lia.
Qed.

Lemma counter_never_decreases_witness :
  safeCounter 40 /\
  stateFile (snd (main flakyEnv
                       (initWorld (Some {| lastTournamentDayNum := 40 |})))) =
  Some {| lastTournamentDayNum := 42 |}.
Proof.
  assert (Hsafe : safeCounter 40) by (vm_compute; repeat split; easy).
  split; [exact Hsafe|].
  destruct (counter_never_decreases flakyEnv
              (Some {| lastTournamentDayNum := 40 |}) eq_refl Hsafe)
    as [[Hsame | Hnew] _]; [|exact Hnew].
  vm_compute in Hsame. discriminate Hsame.
Defined.

(** X20. No other exit status than 0 and 1 occurs, and status 0
    certifies a complete run: four submissions were made, all succeeded,
    and the state write completed; from a whole-number counter between
    -2^53 and 2^53 - 2 the state file then holds the old counter plus
    two. *)
Theorem exit_0_means_all_done (E : Env) (file : option TournamentState) :
  let run := main E (initWorld file) in
  (fst run = 0 \/ fst run = 1) /\
  (fst run = 0 ->
   List.length (resultsOf (trace (snd run))) = 4%nat /\
   Forall succeeded (resultsOf (trace (snd run))) /\
   List.length (writesOf (trace (snd run))) = 1%nat /\
   stateFile (snd run) = last (map Some (writesOf (trace (snd run)))) file /\
   (safeCounter (lastTournamentDayNum (loadedState file)) ->
    stateFile (snd run) =
      Some {| lastTournamentDayNum :=
                lastTournamentDayNum (loadedState file) + 2 |})).
Proof.
  cbv zeta.
  assert (Hall : forall rs, countFailed rs <= 0 -> Forall succeeded rs).
  { intros rs Hfc. apply Forall_forall. intros r Hin.
    destruct (ok r) eqn:Hok; [assumption|]. exfalso.
    assert (Hex : Exists failed rs) by (apply Exists_exists; eauto).
    apply countFailed_pos in Hex. lia. }
  assert (Hbin : forall c : Z, (if 0 <? c then 1 else 0) = 0 \/
                               (if 0 <? c then 1 else 0) = 1).
  { intros c. destruct (0 <? c); auto. }
  destruct (main_shape E file).
  - split; [right; assumption | intros H0; congruence].
  - split; [rewrite Hstatus; apply Hbin|]. intros H0. exfalso.
    rewrite Hstatus in H0.
    destruct (Z.ltb_spec 0 (countFailed (resultsOf (trace (snd (main E (initWorld file)))))));
      [discriminate|].
    pose proof (counts_total (resultsOf (trace (snd (main E (initWorld file)))))) as Htot.
    pose proof (countFailed_nonneg (resultsOf (trace (snd (main E (initWorld file)))))).
    rewrite Hlength, (generateTournaments_length E _ ts Hbatch) in Htot. lia.
  - split; [rewrite Hstatus; apply Hbin|]. intros H0.
    rewrite Hstatus in H0.
    destruct (Z.ltb_spec 0 (countFailed (resultsOf (trace (snd (main E (initWorld file)))))));
      [discriminate|].
    split; [rewrite Hlength; apply (generateTournaments_length E _ ts Hbatch)|].
    split; [apply Hall; assumption|].
    rewrite Hwrites, Hfile. split; [reflexivity|]. split; [reflexivity|].
    intros Hsafe.
    destruct (attempted_batch E file ts Hbatch Hsafe) as (_ & Hmax').
    assert (maxDayNum = lastTournamentDayNum (loadedState file) + 2)
      by congruence. subst maxDayNum. reflexivity.
  - split; [right; assumption | intros H0; congruence].
Qed.

Lemma exit_0_means_all_done_witness :
  let run := main dryRunEnv (initWorld (Some {| lastTournamentDayNum := 24 |})) in
  safeCounter 24 /\ fst run = 0 /\
  stateFile (snd run) = Some {| lastTournamentDayNum := 26 |}.
Proof.
  cbv zeta.
  assert (Hsafe : safeCounter 24) by (vm_compute; repeat split; easy).
  split; [exact Hsafe|]. split; [vm_compute; reflexivity|].
  destruct (exit_0_means_all_done dryRunEnv
              (Some {| lastTournamentDayNum := 24 |})) as [_ Hdone].
  destruct (Hdone ltac:(vm_compute; reflexivity)) as (_ & _ & _ & _ & Hfile).
  exact (Hfile Hsafe).
Defined.


